(** * Strategy registries, report templates and history logs

    A shallow embedding of the two deliverables of the repository:

    - [ejercicio1/ejercicio1_entregable.py]: order notifications
      ([OrderInfo], the notification strategies, [NotificationFactory],
      [HistoryManager], [OrderProcessor]);
    - [ejercicio2/ejercicio2_entregable.py]: report generation
      ([ReportBuilder], the report, format and delivery strategies, their
      factories, [HistoryManager], [ReportSystem]).

    Python values are embedded as follows.  A [dict] with string keys is a
    [gmap string _]; Python [int] is [Z]; [str] is [string] (the UTF-8 bytes
    of the text: the programs only concatenate text, which commutes with the
    encoding).  Values of type [float], [bool] and [None] are not embedded.
    A raised exception is the left injection of a sum; code that mutates an
    object or prints threads the state explicitly and keeps the state
    reached when the exception was raised.  List objects that are reachable
    through more than one reference (the history lists) live in a store of
    list objects indexed by references. *)

From stdpp Require Import gmap strings list fin_maps pretty.

Open Scope string_scope.
Open Scope list_scope.
Open Scope Z_scope.

(** ** Python values and the runtime *)

Module Py.

(** Scalars: Python [int] and [str]. *)
Inductive scalar :=
  | SInt (n : Z)
  | SStr (s : string).

Global Instance scalar_eq_dec : EqDecision scalar.
Proof. solve_decision. Defined.

(** A row is a flat dict of scalars, such as a customer or a sale. *)
Abbreviation row := (gmap string scalar).

(** The values found in the input dicts: a scalar, a nested dict of
    scalars, or a list of rows. *)
Inductive value :=
  | VScalar (s : scalar)
  | VDict (d : row)
  | VList (l : list row).

(** The exceptions the programs can raise. *)
Inductive exn :=
  | KeyError (key : string)
  | ValueError (msg : string)
  | TypeError
  | OverflowError
  | NotImplementedError.

Global Instance exn_eq_dec : EqDecision exn.
Proof. solve_decision. Defined.

(** A computation that returns an [A] or raises. *)
Abbreviation result := (sum exn).

Global Instance result_ret : MRet result := fun _ x => inr x.
Global Instance result_bind : MBind result := fun _ _ f m =>
  match m with
  | inl e => inl e
  | inr x => f x
  end.

(** A computation over a mutable state [S]: the state is kept when an
    exception is raised. *)
Definition M (S A : Type) : Type := S -> result A * S.

Global Instance M_ret {S} : MRet (M S) := fun _ x s => (inr x, s).
Global Instance M_bind {S} : MBind (M S) := fun _ _ f m s =>
  match m s with
  | (inl e, s') => (inl e, s')
  | (inr x, s') => f x s'
  end.

Definition raise {S A} (e : exn) : M S A := fun s => (inl e, s).
Definition lift {S A} (r : result A) : M S A := fun s => (r, s).
Definition modify {S} (f : S -> S) : M S unit := fun s => (inr tt, f s).
Definition gets {S A} (f : S -> A) : M S A := fun s => (inr (f s), s).

(** [for x in xs: body x] *)
Fixpoint for_each {S A} (xs : list A) (body : A -> M S unit) : M S unit :=
  match xs with
  | [] => mret tt
  | x :: xs' => body x ;; for_each xs' body
  end.

(** [d[k]] on a dict. *)
Definition getitem {V} (d : gmap string V) (k : string) : result V :=
  match d !! k with
  | Some v => inr v
  | None => inl (KeyError k)
  end.

(** [v[k]] with a string key on an arbitrary value: only a dict can be
    subscripted by a string. *)
Definition subscript (v : value) (k : string) : result scalar :=
  match v with
  | VDict d => getitem d k
  | _ => inl TypeError
  end.

(** [s * n] on strings. *)
Fixpoint str_mul (s : string) (n : nat) : string :=
  match n with
  | O => ""
  | S n' => s +:+ str_mul s n'
  end.

(** [str(n)] for an int. *)
Definition str_int (n : Z) : string := pretty n.

(** [str(x)] for a scalar, as an f-string field [{x}] renders it. *)
Definition str_scalar (x : scalar) : string :=
  match x with
  | SInt n => str_int n
  | SStr s => s
  end.

(** [float(n)] for an int, as the integer the resulting double denotes:
    integers below [2^53] in magnitude are exact, larger ones are rounded to
    53 significant bits, ties to even, and the conversion raises
    [OverflowError] when the rounded magnitude reaches [2^1024]. *)
Definition float_of_int (n : Z) : result Z :=
  let a := Z.abs n in
  if a <? 2 ^ 53 then inr n
  else
    let sh := Z.log2 a - 52 in
    let q := Z.shiftr a sh in
    let r := Z.land a (Z.ones sh) in
    let half := Z.shiftl 1 (sh - 1) in
    let q' := if (half <? r) || ((r =? half) && Z.odd q) then q + 1 else q in
    let m := Z.shiftl q' sh in
    if 2 ^ 1024 <=? m then inl OverflowError else inr (Z.sgn n * m).

(** [f"{n:.2f}"] for an int: the int is converted to a double, whose value
    is an integer and is printed exactly, followed by two zero decimals. *)
Definition format_2f (n : Z) : result string :=
  x ← float_of_int n; mret (str_int x +:+ ".00").

(** [a + b] and [a - b] on scalars where the left operand is an int: only
    an int right operand is accepted. *)
Definition int_of (x : scalar) : result Z :=
  match x with
  | SInt n => inr n
  | SStr _ => inl TypeError
  end.

(** What the programs take from the interpreter and the system: the clock
    ([datetime.now()], read any number of times), the two renderings of a
    reading, and the text [str] gives for a dict or a list. *)
Class Runtime := {
  datetime : Type;
  now : nat -> datetime;
  isoformat : datetime -> string;
  strftime : datetime -> string -> string;
  repr_dict : row -> string;
  repr_list : list row -> string
}.

(** [str(v)], as an f-string field [{v}] renders it. *)
Definition str_value `{Runtime} (v : value) : string :=
  match v with
  | VScalar x => str_scalar x
  | VDict d => repr_dict d
  | VList l => repr_list l
  end.

(** A history record: a flat dict. *)
Abbreviation record := (gmap string scalar).

(** References to list objects, and the store of list objects. *)
Abbreviation ref := positive.

(** The world a program runs in: the list objects allocated so far, what
    was printed (one entry per [print] call), and how many times the clock
    was read. *)
Record world := World {
  heap : gmap ref (list record);
  stdout : list string;
  clock : nat
}.

Definition print (s : string) : M world unit :=
  modify (fun w => World (heap w) (stdout w ++ [s]) (clock w)).

(** [datetime.now()] *)
Definition datetime_now `{Runtime} : M world datetime :=
  fun w => (inr (now (clock w)), World (heap w) (stdout w) (S (clock w))).

(** [[]]: a new, empty list object. *)
Definition list_new : M world ref :=
  fun w =>
    let l := fresh (dom (heap w)) in
    (inr l, World (<[l := []]> (heap w)) (stdout w) (clock w)).

(** [l.append(x)] *)
Definition list_append (l : ref) (x : record) : M world unit :=
  modify (fun w =>
    World (alter (fun xs => xs ++ [x]) l (heap w)) (stdout w) (clock w)).

(** The elements of the list object behind a reference. *)
Definition deref (w : world) (l : ref) : option (list record) := heap w !! l.

End Py.

Import Py.

(** The newline character, [chr(10)]. *)
Definition nl : string := String (Ascii.ascii_of_nat 10) "".

(** ** ejercicio1: order notifications *)

Module Ejercicio1.

(** *** [class OrderInfo] *)

Module OrderInfo.
Record t := Make {
  customer : value;
  order_id : value;
  total : value;
  name : scalar;
  email : scalar;
  phone : scalar;
  device : scalar
}.

(** [__init__(self, order_data)]: the seven reads, in the order of the
    source. *)
Definition __init__ (order_data : gmap string value) : result t :=
  customer ← getitem order_data "customer";
  order_id ← getitem order_data "order_id";
  total ← getitem order_data "total";
  name ← subscript customer "name";
  email ← subscript customer "email";
  phone ← subscript customer "phone";
  device ← subscript customer "device_id";
  mret (Make customer order_id total name email phone device).
End OrderInfo.

(** *** The notification strategies

    The base class and its three subclasses.  Instances carry no state, so
    an instance is identified with its class. *)
Inductive notification_class :=
  | NotificationStrategy
  | EmailNotification
  | SMSNotification
  | PushNotification.

Section Send.
Context `{Runtime}.

Definition timestamp_now : M world scalar :=
  t ← datetime_now; mret (SStr (isoformat t)).

Definition EmailNotification_send (info : OrderInfo.t) : M world record :=
  let message :=
    "Estimado " +:+ str_scalar (OrderInfo.name info) +:+ ", su pedido #"
    +:+ str_value (OrderInfo.order_id info) +:+ " por $"
    +:+ str_value (OrderInfo.total info) +:+ " ha sido confirmado." in
  print ("📧 EMAIL enviado a " +:+ str_scalar (OrderInfo.email info));;
  print ("   Asunto: Confirmación de Pedido #"
         +:+ str_value (OrderInfo.order_id info));;
  print ("   Mensaje: " +:+ message +:+ nl);;
  ts ← timestamp_now;
  mret (list_to_map [("type", SStr "email"); ("to", OrderInfo.email info);
                     ("message", SStr message); ("timestamp", ts)]).

Definition SMSNotification_send (info : OrderInfo.t) : M world record :=
  let message :=
    "Pedido #" +:+ str_value (OrderInfo.order_id info)
    +:+ " confirmado. Total: $" +:+ str_value (OrderInfo.total info)
    +:+ ". Gracias por su compra!" in
  print ("📱 SMS enviado a " +:+ str_scalar (OrderInfo.phone info));;
  print ("   Mensaje: " +:+ message +:+ nl);;
  ts ← timestamp_now;
  mret (list_to_map [("type", SStr "sms"); ("to", OrderInfo.phone info);
                     ("message", SStr message); ("timestamp", ts)]).

Definition PushNotification_send (info : OrderInfo.t) : M world record :=
  let message :=
    "¡Pedido confirmado! #" +:+ str_value (OrderInfo.order_id info)
    +:+ " - $" +:+ str_value (OrderInfo.total info) in
  print ("🔔 PUSH enviada al dispositivo "
         +:+ str_scalar (OrderInfo.device info));;
  print ("   Mensaje: " +:+ message +:+ nl);;
  ts ← timestamp_now;
  mret (list_to_map [("type", SStr "push"); ("to", OrderInfo.device info);
                     ("message", SStr message); ("timestamp", ts)]).

(** [strategy.send(info)], dispatched on the class of [strategy]. *)
Definition send (self : notification_class) (info : OrderInfo.t)
  : M world record :=
  match self with
  | NotificationStrategy => raise NotImplementedError
  | EmailNotification => EmailNotification_send info
  | SMSNotification => SMSNotification_send info
  | PushNotification => PushNotification_send info
  end.
End Send.

(** *** [class NotificationFactory] *)

Module NotificationFactory.
Definition _strategies : gmap string notification_class :=
  list_to_map [("email", EmailNotification); ("sms", SMSNotification);
               ("push", PushNotification)].

Definition create (notification_type : string) : result notification_class :=
  match _strategies !! notification_type with
  | Some cls => inr cls
  | None =>
      inl (ValueError ("Tipo de notificación desconocido: "
                       +:+ notification_type))
  end.
End NotificationFactory.

(** *** [class HistoryManager] *)

Module HistoryManager.
(** [self.notifications] is a reference to a list object. *)
Record t := Make { notifications : ref }.

Definition __init__ : M world t :=
  l ← list_new; mret (Make l).

Definition save (self : t) (notification_record : record) : M world unit :=
  list_append (notifications self) notification_record.

(** [return self.notifications]: the reference itself. *)
Definition get_all (self : t) : ref := notifications self.
End HistoryManager.

(** *** [class OrderProcessor] *)

Module OrderProcessor.
Record t := Make { history : HistoryManager.t }.

Definition __init__ : M world t :=
  h ← HistoryManager.__init__; mret (Make h).

Section Process.
Context `{Runtime}.

Definition process_order (self : t) (order_data : gmap string value)
    (notification_types : list string) : M world unit :=
  info ← lift (OrderInfo.__init__ order_data);
  print (nl +:+ str_mul "=" 50);;
  print ("Procesando pedido #" +:+ str_value (OrderInfo.order_id info));;
  print ("Cliente: " +:+ str_scalar (OrderInfo.name info));;
  print ("Total: $" +:+ str_value (OrderInfo.total info));;
  print (str_mul "=" 50 +:+ nl);;
  for_each notification_types (fun notif_type =>
    strategy ← lift (NotificationFactory.create notif_type);
    record ← send strategy info;
    HistoryManager.save (history self) record).
End Process.

Definition get_history (self : t) : ref := HistoryManager.get_all (history self).
End OrderProcessor.

End Ejercicio1.

(** ** ejercicio2: report generation *)

Module Ejercicio2.

(** *** [class ReportBuilder] *)

Module ReportBuilder.
Record t := Make { parts : list string }.

(** [ReportBuilder()] *)
Definition __init__ : t := Make [].

Definition append (fragment : string) : M t unit :=
  modify (fun self => Make (parts self ++ [fragment])).

Definition add (text : string) : M t unit :=
  append (text +:+ nl).

Definition separator : M t unit :=
  append (str_mul "-" 60 +:+ nl).

Definition header (title : string) : M t unit :=
  append (str_mul "=" 60 +:+ nl);;
  append ("           " +:+ title +:+ nl);;
  append (str_mul "=" 60 +:+ nl).

(** [return "".join(self.parts)] *)
Definition build : M t string :=
  gets (fun self => String.concat "" (parts self)).
End ReportBuilder.

(** *** Reading the report data *)

(** [for item in v], where every use of [item] is a subscript [item[key]]
    with a string key.  A list gives its rows.  An int is not iterable.  A
    str or a dict gives str items (characters, keys), and a str cannot be
    subscripted by a string: the loop raises [TypeError] at its first item,
    and behaves as the empty list when there is none. *)
Definition rows_of (v : value) : result (list row) :=
  match v with
  | VList l => inr l
  | VScalar (SInt _) => inl TypeError
  | VScalar (SStr s) => if decide (s = "") then inr [] else inl TypeError
  | VDict d => if decide (d = ∅) then inr [] else inl TypeError
  end.

(** [sum(item[key] for item in rows)]: the running total starts at the int
    [0], so every summand has to be an int. *)
Fixpoint sum_from (acc : Z) (key : string) (rows : list row) : result Z :=
  match rows with
  | [] => inr acc
  | item :: rows' =>
      x ← getitem item key;
      n ← int_of x;
      sum_from (acc + n) key rows'
  end.

Definition sum_field (key : string) (rows : list row) : result Z :=
  sum_from 0 key rows.

(** [item[key] for item in rows], collected. *)
Fixpoint collect (key : string) (rows : list row) : result (list scalar) :=
  match rows with
  | [] => inr []
  | item :: rows' =>
      x ← getitem item key;
      xs ← collect key rows';
      mret (x :: xs)
  end.

(** [len(set(xs))] *)
Definition count_distinct (xs : list scalar) : Z :=
  Z.of_nat (length (remove_dups xs)).

(** [a - b] on two values. *)
Definition sub_values (a b : value) : result Z :=
  match a, b with
  | VScalar (SInt x), VScalar (SInt y) => inr (x - y)
  | _, _ => inl TypeError
  end.

(** [f"{v:.2f}"] on a value. *)
Definition format_2f_scalar (x : scalar) : result string :=
  match x with
  | SInt n => format_2f n
  | SStr _ =>
      inl (ValueError "Unknown format code 'f' for object of type 'str'")
  end.

Definition format_2f_value (v : value) : result string :=
  match v with
  | VScalar x => format_2f_scalar x
  | _ => inl TypeError
  end.

(** *** The report strategies (template method) *)

Inductive report_class :=
  | ReportStrategy
  | SalesReport
  | InventoryReport
  | FinancialReport.

Definition title (self : report_class) : result string :=
  match self with
  | ReportStrategy => inl NotImplementedError
  | SalesReport => inr "REPORTE DE VENTAS"
  | InventoryReport => inr "REPORTE DE INVENTARIO"
  | FinancialReport => inr "REPORTE FINANCIERO"
  end.

Section Body.
Context `{Runtime}.
Import ReportBuilder.

Definition SalesReport_body (data : gmap string value) : M ReportBuilder.t unit :=
  sales ← lift (v ← getitem data "sales"; rows_of v);
  total_sales ← lift (sum_field "amount" sales);
  s ← lift (format_2f total_sales);
  add ("Total de ventas: $" +:+ s);;
  add ("Número de transacciones: " +:+ str_int (Z.of_nat (length sales)));;
  period ← lift (getitem data "period");
  add ("Periodo: " +:+ str_value period +:+ nl);;
  add "Detalle de ventas:";;
  separator;;
  for_each sales (fun sale =>
    product ← lift (getitem sale "product");
    amount ← lift (getitem sale "amount");
    a ← lift (format_2f_scalar amount);
    add ("  • Producto: " +:+ str_scalar product +:+ " - $" +:+ a)).

Definition InventoryReport_body (data : gmap string value) : M ReportBuilder.t unit :=
  items ← lift (v ← getitem data "items"; rows_of v);
  total_items ← lift (sum_field "quantity" items);
  cats ← lift (collect "category" items);
  let categories := count_distinct cats in
  add ("Total de productos: " +:+ str_int total_items);;
  add ("Categorías: " +:+ str_int categories +:+ nl);;
  add "Inventario actual:";;
  separator;;
  for_each items (fun item =>
    name ← lift (getitem item "name");
    category ← lift (getitem item "category");
    quantity ← lift (getitem item "quantity");
    add ("  • " +:+ str_scalar name +:+ " (" +:+ str_scalar category
         +:+ "): " +:+ str_scalar quantity +:+ " unidades")).

Definition FinancialReport_body (data : gmap string value) : M ReportBuilder.t unit :=
  income ← lift (getitem data "income");
  expenses ← lift (getitem data "expenses");
  balance ← lift (sub_values income expenses);
  i ← lift (format_2f_value income);
  add ("Ingresos: $" +:+ i);;
  e ← lift (format_2f_value expenses);
  add ("Gastos: $" +:+ e);;
  b ← lift (format_2f balance);
  add ("Balance: $" +:+ b).

(** [self.body(builder, data)], dispatched on the class of [self]; the
    builder is the state. *)
Definition body (self : report_class) (data : gmap string value)
  : M ReportBuilder.t unit :=
  match self with
  | ReportStrategy => raise NotImplementedError
  | SalesReport => SalesReport_body data
  | InventoryReport => InventoryReport_body data
  | FinancialReport => FinancialReport_body data
  end.

(** [ReportStrategy.generate(self, data, timestamp)], on a builder of its
    own. *)
Definition generate (self : report_class) (data : gmap string value)
    (timestamp : string) : result string :=
  fst ((t ← lift (title self);
        header t;;
        add ("Fecha de generación: " +:+ timestamp +:+ nl);;
        body self data;;
        build) ReportBuilder.__init__).
End Body.

(** *** The format strategies *)

Inductive format_class :=
  | FormatStrategy
  | PDFFormatter
  | ExcelFormatter
  | HTMLFormatter.

Definition format (self : format_class) (content : string) : M world string :=
  match self with
  | FormatStrategy => raise NotImplementedError
  | PDFFormatter =>
      print "📄 Generando reporte en formato PDF...";;
      mret ("[PDF FORMAT]" +:+ nl +:+ content +:+ nl +:+ "[END PDF]")
  | ExcelFormatter =>
      print "📊 Generando reporte en formato Excel...";;
      mret ("[EXCEL FORMAT]" +:+ nl +:+ content +:+ nl +:+ "[END EXCEL]")
  | HTMLFormatter =>
      print "🌐 Generando reporte en formato HTML...";;
      mret ("<html><body><pre>" +:+ nl +:+ content +:+ nl
            +:+ "</pre></body></html>")
  end.

(** *** The delivery strategies *)

Inductive delivery_class :=
  | DeliveryStrategy
  | EmailDelivery
  | DownloadDelivery
  | CloudDelivery.

Section Deliver.
Context `{Runtime}.

Definition deliver (self : delivery_class)
    (formatted_report report_type output_format : string) : M world unit :=
  match self with
  | DeliveryStrategy => raise NotImplementedError
  | EmailDelivery =>
      print "📧 Enviando reporte por email...";;
      print "   Destinatario: admin@company.com"
  | DownloadDelivery =>
      t ← datetime_now;
      let filename :=
        "report_" +:+ report_type +:+ "_" +:+ strftime t "%Y%m%d_%H%M%S"
        +:+ "." +:+ output_format in
      print "💾 Reporte disponible para descarga:";;
      print ("   Archivo: " +:+ filename)
  | CloudDelivery =>
      print "☁️  Subiendo reporte a la nube...";;
      print ("   URL: https://cloud.company.com/reports/" +:+ report_type)
  end.
End Deliver.

(** *** The factories *)

Module ReportFactory.
Definition _strategies : gmap string report_class :=
  list_to_map [("sales", SalesReport); ("inventory", InventoryReport);
               ("financial", FinancialReport)].

Definition create (report_type : string) : result report_class :=
  match _strategies !! report_type with
  | Some cls => inr cls
  | None => inl (ValueError ("Tipo de reporte desconocido: " +:+ report_type))
  end.
End ReportFactory.

Module FormatFactory.
Definition _strategies : gmap string format_class :=
  list_to_map [("pdf", PDFFormatter); ("excel", ExcelFormatter);
               ("html", HTMLFormatter)].

Definition create (output_format : string) : result format_class :=
  match _strategies !! output_format with
  | Some cls => inr cls
  | None => inl (ValueError ("Formato desconocido: " +:+ output_format))
  end.
End FormatFactory.

Module DeliveryFactory.
Definition _strategies : gmap string delivery_class :=
  list_to_map [("email", EmailDelivery); ("download", DownloadDelivery);
               ("cloud", CloudDelivery)].

Definition create (delivery_method : string) : result delivery_class :=
  match _strategies !! delivery_method with
  | Some cls => inr cls
  | None =>
      inl (ValueError ("Método de entrega desconocido: " +:+ delivery_method))
  end.
End DeliveryFactory.

(** *** [class HistoryManager] *)

Module HistoryManager.
(** [self._reports] is a reference to a list object. *)
Record t := Make { _reports : ref }.

Definition __init__ : M world t :=
  l ← list_new; mret (Make l).

Definition save (self : t) (record : record) : M world unit :=
  list_append (_reports self) record.

(** [return self._reports]: the reference itself. *)
Definition get_all (self : t) : ref := _reports self.
End HistoryManager.

(** *** [class ReportSystem] *)

Module ReportSystem.
Record t := Make { history : HistoryManager.t }.

Definition __init__ : M world t :=
  h ← HistoryManager.__init__; mret (Make h).

Section Generate.
Context `{Runtime}.

Definition generate_report (self : t) (report_type : string)
    (data : gmap string value) (output_format delivery_method : string)
  : M world string :=
  t ← datetime_now;
  let timestamp := strftime t "%Y-%m-%d %H:%M:%S" in
  report_strategy ← lift (ReportFactory.create report_type);
  format_strategy ← lift (FormatFactory.create output_format);
  delivery_strategy ← lift (DeliveryFactory.create delivery_method);
  report_content ← lift (generate report_strategy data timestamp);
  formatted_report ← format format_strategy report_content;
  deliver delivery_strategy formatted_report report_type output_format;;
  HistoryManager.save (history self)
    (list_to_map [("type", SStr report_type); ("format", SStr output_format);
                  ("delivery", SStr delivery_method);
                  ("timestamp", SStr timestamp)]);;
  print (nl +:+ "✅ Reporte generado exitosamente" +:+ nl);;
  print formatted_report;;
  print (nl +:+ str_mul "=" 60 +:+ nl);;
  mret formatted_report.
End Generate.

Definition get_report_history (self : t) : ref :=
  HistoryManager.get_all (history self).
End ReportSystem.

End Ejercicio2.

(** ** Vocabulary of the properties *)

(** [needle in text] *)
Definition contains (needle text : string) : Prop :=
  exists pre post, text = pre +:+ needle +:+ post.

(** The exceptions a computation can raise all satisfy [P]. *)
Definition raises_only {A} (P : exn -> Prop) (r : result A) : Prop :=
  forall e, r = inl e -> P e.

Definition raises_only_m {S A} (P : exn -> Prop) (m : M S A) : Prop :=
  forall s, raises_only P (fst (m s)).

(** A method is implemented when calling it never ends in the
    [NotImplementedError] of the abstract base class. *)
Definition implemented (e : exn) : Prop := e <> NotImplementedError.

(** A builder computation only appends: its outcome and the fragments it
    appends do not depend on what the builder already holds. *)
Definition appends_only {A} (m : M Ejercicio2.ReportBuilder.t A) : Prop :=
  exists (r : result A) (frags : list string),
    forall b, m b = (r, Ejercicio2.ReportBuilder.Make
                          (Ejercicio2.ReportBuilder.parts b ++ frags)).

(** What a registry promises for a key: a registered key gives an instance
    of the registered class, whose method is implemented; any other key
    gives the [ValueError] of the factory. *)
Definition create_spec {C} (registry : gmap string C)
    (create : string -> result C) (implements : C -> Prop) (k : string) : Prop :=
  match registry !! k with
  | Some cls => create k = inr cls /\ implements cls
  | None => exists msg, create k = inl (ValueError msg)
  end.

Module Props1.
Import Ejercicio1.

Definition implements_send (c : notification_class) : Prop :=
  forall (rt : Runtime) info, raises_only_m implemented (send c info).

(** The field paths [OrderInfo] reads, in the order it reads them. *)
Definition required_fields : list (list string) :=
  [["customer"]; ["order_id"]; ["total"]; ["customer"; "name"];
   ["customer"; "email"]; ["customer"; "phone"]; ["customer"; "device_id"]].

(** Whether a field path leads to a value in a raw order. *)
Definition present (order_data : gmap string value) (path : list string)
  : bool :=
  match path with
  | [k] => bool_decide (is_Some (order_data !! k))
  | [k1; k2] =>
      match order_data !! k1 with
      | Some (VDict d) => bool_decide (is_Some (d !! k2))
      | _ => false
      end
  | _ => false
  end.

Definition first_missing (order_data : gmap string value)
  : option (list string) :=
  List.find (fun p => negb (present order_data p)) required_fields.

(** The key a field path ends in. *)
Definition leaf (path : list string) : string := List.last path "".

(** The nested [customer] entry, when there is one, is a dict. *)
Definition customer_is_dict (order_data : gmap string value) : Prop :=
  match order_data !! "customer" with
  | Some (VDict _) | None => True
  | Some _ => False
  end.

(** The records of a history have the given types, one by one. *)
Definition types_are (records : list record) (types : list string) : Prop :=
  Forall2 (fun (r : record) t => r !! "type" = Some (SStr t)) records types.
End Props1.

Module Props2.
Import Ejercicio2.

Definition implements_generate (c : report_class) : Prop :=
  forall (rt : Runtime) data timestamp,
    raises_only implemented (generate c data timestamp).

Definition implements_format (c : format_class) : Prop :=
  forall content, raises_only_m implemented (format c content).

Definition implements_deliver (c : delivery_class) : Prop :=
  forall (rt : Runtime) formatted_report report_type output_format,
    raises_only_m implemented
      (deliver c formatted_report report_type output_format).

(** The calls a client can make on a builder, what each one runs, and the
    fragments it is expected to append. *)
Inductive call :=
  | Add (text : string)
  | Separator
  | Header (title : string).

Definition exec (c : call) : M ReportBuilder.t unit :=
  match c with
  | Add text => ReportBuilder.add text
  | Separator => ReportBuilder.separator
  | Header title => ReportBuilder.header title
  end.

Definition fragments (c : call) : list string :=
  match c with
  | Add text => [text +:+ nl]
  | Separator => [str_mul "-" 60 +:+ nl]
  | Header title =>
      [str_mul "=" 60 +:+ nl; "           " +:+ title +:+ nl;
       str_mul "=" 60 +:+ nl]
  end.
End Props2.

(** A runtime to evaluate the programs on concrete inputs: the clock counts
    its readings. *)
Definition sample_runtime : Runtime := {|
  datetime := nat;
  now := fun n => n;
  isoformat := fun t => "2024-01-01T00:00:" +:+ pretty t;
  strftime := fun t _ => pretty t;
  repr_dict := fun _ => "{...}";
  repr_list := fun _ => "[...]"
|}.

(** Sample inputs. *)
Definition sample_customer : row :=
  list_to_map [("name", SStr "Ana"); ("email", SStr "ana@email.com");
               ("phone", SStr "600-123"); ("device_id", SStr "DEVICE-1")].

Definition sample_order : gmap string value :=
  list_to_map [("order_id", VScalar (SStr "ORD-001"));
               ("customer", VDict sample_customer);
               ("total", VScalar (SInt 150))].

Definition sample_record : record := {[ "type" := SStr "email" ]}.

Definition financial_data : gmap string value :=
  list_to_map [("income", VScalar (SInt 50000));
               ("expenses", VScalar (SInt 32000))].

(** ** Vocabulary of the further properties *)

Module Props3.
Import Ejercicio1.

(** The contact field a channel class addresses its record to. *)
Definition contact (c : notification_class) (info : OrderInfo.t)
  : option scalar :=
  match c with
  | NotificationStrategy => None
  | EmailNotification => Some (OrderInfo.email info)
  | SMSNotification => Some (OrderInfo.phone info)
  | PushNotification => Some (OrderInfo.device info)
  end.

(** One iteration of the dispatch loop of [process_order]. *)
Definition dispatch `{Runtime} (log : HistoryManager.t) (info : OrderInfo.t)
    (notif_type : string) : M world unit :=
  strategy ← lift (NotificationFactory.create notif_type);
  record ← send strategy info;
  HistoryManager.save log record.

(** The five lines [process_order] prints before it dispatches. *)
Definition order_banner `{Runtime} (info : OrderInfo.t) : list string :=
  [nl +:+ str_mul "=" 50;
   "Procesando pedido #" +:+ str_value (OrderInfo.order_id info);
   "Cliente: " +:+ str_scalar (OrderInfo.name info);
   "Total: $" +:+ str_value (OrderInfo.total info);
   str_mul "=" 50 +:+ nl].
End Props3.

Module Props4.
Import Ejercicio2.

(** An int that a double holds exactly. *)
Definition small (n : Z) : Prop := Z.abs n < 2 ^ 53.

(** [f"{n:.2f}"] for such an int. *)
Definition two_decimals (n : Z) : string := str_int n +:+ ".00".

(** The fragments [generate] appends before the body: the header block and
    the line with the timestamp. *)
Definition report_header (title timestamp : string) : list string :=
  [str_mul "=" 60 +:+ nl; "           " +:+ title +:+ nl;
   str_mul "=" 60 +:+ nl;
   ("Fecha de generación: " +:+ timestamp +:+ nl) +:+ nl].

(** A row of [sales] holds a product and an int amount. *)
Definition sale_row (r : row) (sale : scalar * Z) : Prop :=
  r !! "product" = Some sale.1 /\ r !! "amount" = Some (SInt sale.2).

Definition sale_line (sale : scalar * Z) : string :=
  ("  • Producto: " +:+ str_scalar sale.1 +:+ " - $" +:+ two_decimals sale.2)
  +:+ nl.

(** A row of [items] holds a name, a category and an int quantity. *)
Definition item_row (r : row) (item : scalar * scalar * Z) : Prop :=
  r !! "name" = Some item.1.1 /\ r !! "category" = Some item.1.2
  /\ r !! "quantity" = Some (SInt item.2).

Definition item_line (item : scalar * scalar * Z) : string :=
  ("  • " +:+ str_scalar item.1.1 +:+ " (" +:+ str_scalar item.1.2 +:+ "): "
   +:+ str_scalar (SInt item.2) +:+ " unidades") +:+ nl.

Definition sum_list (l : list Z) : Z := foldr Z.add 0 l.

(** The record [generate_report] saves. *)
Definition report_record (report_type output_format delivery_method
    timestamp : string) : record :=
  list_to_map [("type", SStr report_type); ("format", SStr output_format);
               ("delivery", SStr delivery_method);
               ("timestamp", SStr timestamp)].
End Props4.

(** ** Running computations *)

Lemma bind_run {S A B} (m : M S A) (f : A -> M S B) (s : S) :
  (m ≫= f) s =
  match m s with
  | (inl e, s') => (inl e, s')
  | (inr x, s') => f x s'
  end.
Proof. reflexivity. Qed.

Lemma bind_run_ok {S A B} (m : M S A) (f : A -> M S B) (s s' : S) (x : A) :
  m s = (inr x, s') -> (m ≫= f) s = f x s'.
Proof. intros E. rewrite bind_run, E. reflexivity. Qed.

Lemma bind_run_err {S A B} (m : M S A) (f : A -> M S B) (s s' : S) (e : exn) :
  m s = (inl e, s') -> (m ≫= f) s = (inl e, s').
Proof. intros E. rewrite bind_run, E. reflexivity. Qed.

Lemma lift_run {S A} (r : result A) (s : S) : lift r s = (r, s).
Proof. reflexivity. Qed.

Lemma for_each_cons {S A} (x : A) (xs : list A) (body : A -> M S unit) :
  for_each (x :: xs) body = (body x ;; for_each xs body).
Proof. reflexivity. Qed.

(** ** The store of list objects *)

Lemma list_append_run (l : ref) (x : record) (w : world) :
  list_append l x w =
  (inr tt, World (alter (fun xs => xs ++ [x]) l (heap w)) (stdout w) (clock w)).
Proof. reflexivity. Qed.

Lemma deref_list_append (l : ref) (x : record) (w : world) :
  deref (snd (list_append l x w)) l = (fun xs => xs ++ [x]) <$> deref w l.
Proof.
  rewrite list_append_run. unfold deref. simpl.
  rewrite lookup_alter. case_decide; [reflexivity | congruence].
Qed.

Lemma deref_list_append_ne (l l' : ref) (x : record) (w : world) :
  l <> l' -> deref (snd (list_append l x w)) l' = deref w l'.
Proof.
  intros Hne. rewrite list_append_run. unfold deref. simpl.
  rewrite lookup_alter. case_decide; [congruence | reflexivity].
Qed.

Lemma list_new_run (w : world) :
  exists l w',
    list_new w = (inr l, w') /\ deref w l = None /\ deref w' l = Some []
    /\ stdout w' = stdout w /\ clock w' = clock w
    /\ forall l', l' <> l -> deref w' l' = deref w l'.
Proof.
  set (l := fresh (dom (heap w))).
  exists l, (World (<[l := []]> (heap w)) (stdout w) (clock w)).
  unfold deref; simpl. repeat split.
  - apply not_elem_of_dom. apply is_fresh.
  - apply lookup_insert_eq.
  - intros l' Hne. apply lookup_insert_ne. congruence.
Qed.

(** [n] appends in a row extend the list object by the [n] elements, in
    order, and touch nothing else. *)
Lemma for_each_list_append (l : ref) (rs h : list record) (w : world) :
  deref w l = Some h ->
  exists w',
    for_each rs (list_append l) w = (inr tt, w')
    /\ deref w' l = Some (h ++ rs)
    /\ stdout w' = stdout w /\ clock w' = clock w.
Proof.
  revert h w. induction rs as [|r rs IH]; intros h w Hh.
  - exists w. rewrite app_nil_r. auto.
  - rewrite for_each_cons, bind_run, list_append_run.
    pose proof (deref_list_append l r w) as Hd.
    rewrite list_append_run, Hh in Hd. simpl in Hd.
    destruct (IH _ _ Hd) as (w' & Hrun & Hl & Hout & Hclk).
    exists w'. rewrite Hrun, Hl, <- app_assoc. auto.
Qed.

(** ** The history logs *)

(** C4.  [save] followed by [get_all]: on any history manager whose list
    holds [h], [save r] succeeds and [get_all] then reads [h] followed by
    [r], one element longer; [N] saves in a row make it read [h] followed by
    the [N] records in the order they were saved; and a manager just
    created reads as the empty list, so that after [N] saves it reads
    exactly the [N] records.  This holds for the history manager of both
    programs. *)
Theorem history_all_after_appends
    (log1 : Ejercicio1.HistoryManager.t) (log2 : Ejercicio2.HistoryManager.t)
    (w : world) (h rs : list record) (r : record) :
  deref w (Ejercicio1.HistoryManager.get_all log1) = Some h ->
  deref w (Ejercicio2.HistoryManager.get_all log2) = Some h ->
  (exists w',
      Ejercicio1.HistoryManager.save log1 r w = (inr tt, w')
      /\ deref w' (Ejercicio1.HistoryManager.get_all log1) = Some (h ++ [r])
      /\ length (h ++ [r]) = S (length h))
  /\ (exists w',
      for_each rs (Ejercicio1.HistoryManager.save log1) w = (inr tt, w')
      /\ deref w' (Ejercicio1.HistoryManager.get_all log1) = Some (h ++ rs)
      /\ length (h ++ rs) = (length h + length rs)%nat)
  /\ (exists w',
      Ejercicio2.HistoryManager.save log2 r w = (inr tt, w')
      /\ deref w' (Ejercicio2.HistoryManager.get_all log2) = Some (h ++ [r])
      /\ length (h ++ [r]) = S (length h))
  /\ (exists w',
      for_each rs (Ejercicio2.HistoryManager.save log2) w = (inr tt, w')
      /\ deref w' (Ejercicio2.HistoryManager.get_all log2) = Some (h ++ rs)
      /\ length (h ++ rs) = (length h + length rs)%nat)
  /\ (exists fresh1 w1 w',
      Ejercicio1.HistoryManager.__init__ w = (inr fresh1, w1)
      /\ deref w1 (Ejercicio1.HistoryManager.get_all fresh1) = Some []
      /\ for_each rs (Ejercicio1.HistoryManager.save fresh1) w1 = (inr tt, w')
      /\ deref w' (Ejercicio1.HistoryManager.get_all fresh1) = Some rs)
  /\ (exists fresh2 w2 w',
      Ejercicio2.HistoryManager.__init__ w = (inr fresh2, w2)
      /\ deref w2 (Ejercicio2.HistoryManager.get_all fresh2) = Some []
      /\ for_each rs (Ejercicio2.HistoryManager.save fresh2) w2 = (inr tt, w')
      /\ deref w' (Ejercicio2.HistoryManager.get_all fresh2) = Some rs).
Proof.
  intros H1 H2.
  assert (Hone : forall l, deref w l = Some h ->
            exists w', list_append l r w = (inr tt, w')
                       /\ deref w' l = Some (h ++ [r])
                       /\ length (h ++ [r]) = S (length h)).
  { intros l Hl. eexists. split; [apply list_append_run |]. split.
    - pose proof (deref_list_append l r w) as Hd.
      rewrite list_append_run, Hl in Hd. exact Hd.
    - rewrite length_app. simpl. lia. }
  assert (Hmany : forall l, deref w l = Some h ->
            exists w', for_each rs (list_append l) w = (inr tt, w')
                       /\ deref w' l = Some (h ++ rs)
                       /\ length (h ++ rs) = (length h + length rs)%nat).
  { intros l Hl. destruct (for_each_list_append l rs h w Hl) as (w' & ? & ? & _).
    exists w'. rewrite length_app. auto. }
  assert (Hfresh : exists l w1 w',
            list_new w = (inr l, w1) /\ deref w1 l = Some []
            /\ for_each rs (list_append l) w1 = (inr tt, w')
            /\ deref w' l = Some rs).
  { destruct (list_new_run w) as (l & w1 & Hnew & _ & Hl & _).
    destruct (for_each_list_append l rs [] w1 Hl) as (w' & ? & ? & _).
    exists l, w1, w'. auto. }
  split; [exact (Hone _ H1) |].
  split; [exact (Hmany _ H1) |].
  split; [exact (Hone _ H2) |].
  split; [exact (Hmany _ H2) |].
  destruct Hfresh as (l & w1 & w' & Hnew & Hl & Hrun & Hl').
  split.
  - exists (Ejercicio1.HistoryManager.Make l), w1, w'.
    unfold Ejercicio1.HistoryManager.__init__.
    rewrite (bind_run_ok _ _ _ _ _ Hnew). auto.
  - exists (Ejercicio2.HistoryManager.Make l), w1, w'.
    unfold Ejercicio2.HistoryManager.__init__.
    rewrite (bind_run_ok _ _ _ _ _ Hnew). auto.
Qed.

Lemma history_all_after_appends_witness :
  exists w',
    Ejercicio1.HistoryManager.save (Ejercicio1.HistoryManager.Make 1)
      sample_record (World {[ 1%positive := [] ]} [] 0) = (inr tt, w')
    /\ deref w' 1%positive = Some [sample_record].
Proof.
  assert (Hlog : deref (World {[ 1%positive := [] ]} [] 0) 1%positive = Some [])
    by (vm_compute; reflexivity).
  destruct (history_all_after_appends
              (Ejercicio1.HistoryManager.Make 1)
              (Ejercicio2.HistoryManager.Make 1)
              (World {[ 1%positive := [] ]} [] 0) [] [sample_record]
              sample_record Hlog Hlog)
    as [(w' & Hsave & Hall & _) _].
  exists w'. split; [exact Hsave | exact Hall].
Defined.

(** C9, as stated, fails: the sequence [get_all] returned before a [save]
    reads differently after it. *)
Lemma get_all_view_altered_by_save :
  ~ (forall (log : Ejercicio1.HistoryManager.t) (w : world) (r : record),
       let view := Ejercicio1.HistoryManager.get_all log in
       deref (snd (Ejercicio1.HistoryManager.save log r w)) view
       = deref w view).
Proof.
  intros Hsnap.
  specialize (Hsnap (Ejercicio1.HistoryManager.Make 1)
                    (World {[ 1%positive := [] ]} [] 0) sample_record).
  vm_compute in Hsnap. discriminate Hsnap.
Qed.

(** C9, amended.  [get_all] returns the manager's own list object, not a
    copy: the sequence holds the records in insertion order, a later [save]
    shows through a sequence returned earlier (it then reads as before
    followed by the saved record), and an append made through the returned
    sequence is the same mutation as a [save].  This holds for the history
    manager of both programs. *)
Theorem get_all_is_an_alias
    (log1 : Ejercicio1.HistoryManager.t) (log2 : Ejercicio2.HistoryManager.t)
    (w : world) (h : list record) (r : record) :
  deref w (Ejercicio1.HistoryManager.get_all log1) = Some h ->
  deref w (Ejercicio2.HistoryManager.get_all log2) = Some h ->
  let view1 := Ejercicio1.HistoryManager.get_all log1 in
  let view2 := Ejercicio2.HistoryManager.get_all log2 in
  view1 = Ejercicio1.HistoryManager.notifications log1
  /\ deref (snd (Ejercicio1.HistoryManager.save log1 r w)) view1
     = Some (h ++ [r])
  /\ list_append view1 r w = Ejercicio1.HistoryManager.save log1 r w
  /\ view2 = Ejercicio2.HistoryManager._reports log2
  /\ deref (snd (Ejercicio2.HistoryManager.save log2 r w)) view2
     = Some (h ++ [r])
  /\ list_append view2 r w = Ejercicio2.HistoryManager.save log2 r w.
Proof.
  intros H1 H2 view1 view2.
  split; [reflexivity |]. split.
  { unfold Ejercicio1.HistoryManager.save. subst view1.
    unfold Ejercicio1.HistoryManager.get_all in *.
    rewrite deref_list_append, H1. reflexivity. }
  split; [reflexivity |]. split; [reflexivity |]. split.
  { unfold Ejercicio2.HistoryManager.save. subst view2.
    unfold Ejercicio2.HistoryManager.get_all in *.
    rewrite deref_list_append, H2. reflexivity. }
  reflexivity.
Qed.

Lemma get_all_is_an_alias_witness :
  deref (snd (Ejercicio1.HistoryManager.save (Ejercicio1.HistoryManager.Make 1)
                sample_record (World {[ 1%positive := [] ]} [] 0)))
        (Ejercicio1.HistoryManager.get_all (Ejercicio1.HistoryManager.Make 1))
  = Some [sample_record].
Proof.
  assert (Hlog : deref (World {[ 1%positive := [] ]} [] 0) 1%positive = Some [])
    by (vm_compute; reflexivity).
  exact (proj1 (proj2 (get_all_is_an_alias
                         (Ejercicio1.HistoryManager.Make 1)
                         (Ejercicio2.HistoryManager.Make 1)
                         (World {[ 1%positive := [] ]} [] 0) []
                         sample_record Hlog Hlog))).
Defined.

(** ** The notification flow *)

Section Notifications.
Import Ejercicio1 Props1.

Lemma notification_strategies_lookup (k : string) :
  Ejercicio1.NotificationFactory._strategies !! k =
  if decide (k = "email") then Some Ejercicio1.EmailNotification
  else if decide (k = "sms") then Some Ejercicio1.SMSNotification
  else if decide (k = "push") then Some Ejercicio1.PushNotification
  else None.
Proof.
  unfold Ejercicio1.NotificationFactory._strategies. simpl.
  rewrite !lookup_insert, lookup_empty.
  repeat case_decide; congruence.
Qed.

(** What [OrderInfo] does on a raw order whose [customer] entry, if any, is
    a dict: it raises [KeyError] with the key of the first required field
    that is missing, in the order it reads the fields, and builds the
    object when none is missing. *)
Lemma init_cases (order_data : gmap string value) :
  customer_is_dict order_data ->
  match first_missing order_data with
  | Some p => OrderInfo.__init__ order_data = inl (KeyError (leaf p))
  | None => exists info, OrderInfo.__init__ order_data = inr info
  end.
Proof.
  unfold customer_is_dict, first_missing, OrderInfo.__init__, required_fields,
    present, getitem.
  simpl.
  destruct (order_data !! "customer") as [[x|c|l]|] eqn:Hc; simpl; try tauto; intros _.
  - destruct (order_data !! "order_id") eqn:Ho; simpl; [|reflexivity].
    destruct (order_data !! "total") eqn:Ht; simpl; [|reflexivity].
    unfold getitem.
    destruct (c !! "name") eqn:Hn; simpl; [|reflexivity].
    destruct (c !! "email") eqn:He; simpl; [|reflexivity].
    destruct (c !! "phone") eqn:Hp; simpl; [|reflexivity].
    destruct (c !! "device_id") eqn:Hd; simpl; [|reflexivity].
    eauto.
Qed.

Lemma print_run (s : string) (w : world) :
  print s w = (inr tt, World (heap w) (stdout w ++ [s]) (clock w)).
Proof. reflexivity. Qed.

Lemma send_registered `{Runtime} (k : string) (c : notification_class)
    (info : OrderInfo.t) (w : world) :
  NotificationFactory._strategies !! k = Some c ->
  exists r w',
    send c info w = (inr r, w') /\ r !! "type" = Some (SStr k)
    /\ heap w' = heap w.
Proof.
  rewrite notification_strategies_lookup.
  repeat case_decide; intros [= <-]; subst k;
    (eexists _, _; split; [reflexivity |]; split; [| reflexivity];
     simpl; rewrite !lookup_insert; repeat case_decide; congruence).
Qed.

Lemma create_registered (k : string) (c : notification_class) :
  NotificationFactory._strategies !! k = Some c ->
  NotificationFactory.create k = inr c.
Proof. unfold NotificationFactory.create. intros ->. reflexivity. Qed.

Lemma create_unregistered (k : string) :
  NotificationFactory._strategies !! k = None ->
  NotificationFactory.create k
  = inl (ValueError ("Tipo de notificación desconocido: " +:+ k)).
Proof. unfold NotificationFactory.create. intros ->. reflexivity. Qed.


(** The dispatch loop runs the channels in order up to the first one that is
    not registered: [done] are the channels it completed, each with one
    record of its type appended, and the world it leaves at a failure is the
    one the loop over [done] alone leaves. *)
Lemma notify_loop (rt : Runtime) (log : HistoryManager.t) (info : OrderInfo.t)
    (types : list string) (w : world) (h : list record) :
  let body := fun notif_type =>
    strategy ← lift (NotificationFactory.create notif_type);
    record ← send strategy info;
    HistoryManager.save log record in
  deref w (HistoryManager.get_all log) = Some h ->
  exists done rs w',
    for_each done body w = (inr tt, w')
    /\ deref w' (HistoryManager.get_all log) = Some (h ++ rs)
    /\ types_are rs done
    /\ (done = types
        \/ exists k rest,
             types = done ++ k :: rest
             /\ NotificationFactory._strategies !! k = None
             /\ for_each types body w
                = (inl (ValueError
                          ("Tipo de notificación desconocido: " +:+ k)), w')).
Proof.
  intros body. revert w h. induction types as [|k types IH]; intros w h Hh.
  - exists [], [], w. rewrite app_nil_r.
    repeat split; [assumption | constructor | left; auto].
  - destruct (NotificationFactory._strategies !! k) as [c|] eqn:Hk.
    + destruct (send_registered k c info w Hk) as (r & w1 & Hsend & Hty & Hheap).
      set (w2 := World (alter (fun xs => xs ++ [r])
                          (HistoryManager.notifications log) (heap w1))
                       (stdout w1) (clock w1)).
      assert (Hstep : body k w = (inr tt, w2)).
      { unfold body. rewrite bind_run, lift_run, (create_registered _ _ Hk).
        rewrite bind_run, Hsend. reflexivity. }
      assert (Hh2 : deref w2 (HistoryManager.get_all log) = Some (h ++ [r])).
      { unfold deref, w2, HistoryManager.get_all in *; simpl.
        rewrite lookup_alter, decide_True by reflexivity.
        rewrite Hheap, Hh. reflexivity. }
      destruct (IH w2 _ Hh2) as (done & rs & w' & Hrun & Hd & Hty' & Hres).
      exists (k :: done), (r :: rs), w'.
      split; [rewrite for_each_cons, (bind_run_ok _ _ _ _ _ Hstep); exact Hrun |].
      split; [rewrite Hd, <- app_assoc; reflexivity |].
      split; [constructor; assumption |].
      destruct Hres as [-> | (k' & rest & -> & Hk' & Hfail)]; [left; auto |].
      right. exists k', rest. split; [reflexivity |]. split; [assumption |].
      rewrite for_each_cons, (bind_run_ok _ _ _ _ _ Hstep). exact Hfail.
    + exists [], [], w. rewrite app_nil_r.
      split; [reflexivity |]. split; [assumption |].
      split; [constructor |]. right. exists k, types.
      split; [reflexivity |]. split; [assumption |].
      rewrite for_each_cons. apply bind_run_err.
      unfold body. apply bind_run_err.
      rewrite lift_run, (create_unregistered _ Hk). reflexivity.
Qed.

Lemma process_order_valid (rt : Runtime) (self : OrderProcessor.t)
    (order_data : gmap string value) (info : OrderInfo.t) (w : world) :
  OrderInfo.__init__ order_data = inr info ->
  exists banner, forall notification_types,
    OrderProcessor.process_order self order_data notification_types w
    = for_each notification_types (fun notif_type =>
        strategy ← lift (NotificationFactory.create notif_type);
        record ← send strategy info;
        HistoryManager.save (OrderProcessor.history self) record)
        (World (heap w) (stdout w ++ banner) (clock w)).
Proof.
  intros Hinfo. eexists. intros notification_types.
  unfold OrderProcessor.process_order.
  rewrite bind_run, lift_run, Hinfo.
  do 5 (rewrite bind_run, print_run). simpl heap. simpl stdout. simpl clock.
  rewrite <- !app_assoc. reflexivity.
Qed.

Lemma process_order_invalid (rt : Runtime) (self : OrderProcessor.t)
    (order_data : gmap string value) (e : exn)
    (notification_types : list string) (w : world) :
  OrderInfo.__init__ order_data = inl e ->
  OrderProcessor.process_order self order_data notification_types w = (inl e, w).
Proof.
  intros Hinfo. unfold OrderProcessor.process_order.
  rewrite bind_run, lift_run, Hinfo. reflexivity.
Qed.

Lemma valid_order_init (order_data : gmap string value) :
  first_missing order_data = None ->
  exists info, OrderInfo.__init__ order_data = inr info.
Proof.
  intros Hnone.
  assert (Hdict : customer_is_dict order_data).
  { revert Hnone.
    unfold customer_is_dict, first_missing, required_fields, present. simpl.
    destruct (order_data !! "customer") as [[x|c|l]|]; simpl; try tauto;
      try discriminate;
      destruct (order_data !! "order_id"); simpl; try discriminate;
      destruct (order_data !! "total"); simpl; discriminate. }
  pose proof (init_cases order_data Hdict) as Hc. rewrite Hnone in Hc. exact Hc.
Qed.

(** C5.  For every order that holds all the required fields, dispatching
    with the channels [["email"; "sms"]] succeeds and appends exactly two
    records to the history, in the order of the channels: the first has
    type ["email"], the second has type ["sms"]. *)
Theorem email_sms_dispatch_appends_two_records (rt : Runtime)
    (self : OrderProcessor.t) (order_data : gmap string value)
    (w : world) (h : list record) :
  first_missing order_data = None ->
  deref w (OrderProcessor.get_history self) = Some h ->
  exists w' r1 r2,
    OrderProcessor.process_order self order_data ["email"; "sms"] w
    = (inr tt, w')
    /\ deref w' (OrderProcessor.get_history self) = Some (h ++ [r1; r2])
    /\ r1 !! "type" = Some (SStr "email")
    /\ r2 !! "type" = Some (SStr "sms").
Proof.
  intros Hvalid Hh.
  destruct (valid_order_init _ Hvalid) as (info & Hinfo).
  destruct (process_order_valid rt self order_data info w Hinfo)
    as (banner & Hfull).
  rewrite Hfull.
  destruct (notify_loop rt (OrderProcessor.history self) info ["email"; "sms"]
              (World (heap w) (stdout w ++ banner) (clock w)) h Hh)
    as (done & rs & w' & Hrun & Hd & Hty & [-> | (k & rest & Heq & Hk & _)]).
  - inversion Hty as [|r1 t1 rs1 ts1 Hr1 Hty1]; subst.
    inversion Hty1 as [|r2 t2 rs2 ts2 Hr2 Hty2]; subst.
    inversion Hty2; subst.
    exists w', r1, r2. auto.
  - exfalso.
    assert (Hin : k ∈ ["email"; "sms"]).
    { rewrite Heq. apply elem_of_app. right. apply elem_of_cons. left. reflexivity. }
    rewrite !elem_of_cons, elem_of_nil in Hin.
    destruct Hin as [-> | [-> | []]]; vm_compute in Hk; discriminate Hk.
Qed.

Lemma email_sms_dispatch_appends_two_records_witness :
  exists w' r1 r2,
    OrderProcessor.process_order (H := sample_runtime)
      (OrderProcessor.Make (HistoryManager.Make 1)) sample_order
      ["email"; "sms"] (World {[ 1%positive := [] ]} [] 0) = (inr tt, w')
    /\ deref w' 1%positive = Some ([] ++ [r1; r2])
    /\ r1 !! "type" = Some (SStr "email")
    /\ r2 !! "type" = Some (SStr "sms").
Proof.
  apply (email_sms_dispatch_appends_two_records sample_runtime
           (OrderProcessor.Make (HistoryManager.Make 1)) sample_order
           (World {[ 1%positive := [] ]} [] 0) []);
    vm_compute; reflexivity.
Defined.



End Notifications.

(** ** Text *)

Lemma append_nil_r (s : string) : s +:+ "" = s.
Proof.
  induction s as [|c s IH]; [reflexivity |].
  change (String c (s +:+ "") = String c s). rewrite IH. reflexivity.
Qed.

Lemma append_assoc (s1 s2 s3 : string) : (s1 +:+ s2) +:+ s3 = s1 +:+ (s2 +:+ s3).
Proof.
  induction s1 as [|c s1 IH]; [reflexivity |].
  change (String c ((s1 +:+ s2) +:+ s3) = String c (s1 +:+ (s2 +:+ s3))).
  rewrite IH. reflexivity.
Qed.

Lemma concat_cons (x : string) (l : list string) :
  String.concat "" (x :: l) = x +:+ String.concat "" l.
Proof. destruct l; simpl; [rewrite append_nil_r |]; reflexivity. Qed.

Lemma concat_app (l1 l2 : list string) :
  String.concat "" (l1 ++ l2) = String.concat "" l1 +:+ String.concat "" l2.
Proof.
  induction l1 as [|x l1 IH]; [reflexivity |].
  rewrite <- app_comm_cons, !concat_cons, IH, append_assoc. reflexivity.
Qed.

(** ** The report builder *)

Section Builder.
Import Ejercicio2 Props2.

Lemma append_run (fragment : string) (b : ReportBuilder.t) :
  ReportBuilder.append fragment b
  = (inr tt, ReportBuilder.Make (ReportBuilder.parts b ++ [fragment])).
Proof. reflexivity. Qed.

Lemma add_run (text : string) (b : ReportBuilder.t) :
  ReportBuilder.add text b
  = (inr tt, ReportBuilder.Make (ReportBuilder.parts b ++ [text +:+ nl])).
Proof. reflexivity. Qed.

Lemma build_run (b : ReportBuilder.t) :
  ReportBuilder.build b = (inr (String.concat "" (ReportBuilder.parts b)), b).
Proof. reflexivity. Qed.

Lemma exec_run (c : call) (b : ReportBuilder.t) :
  exec c b = (inr tt, ReportBuilder.Make (ReportBuilder.parts b ++ fragments c)).
Proof.
  destruct c as [text| |title]; try reflexivity.
  unfold exec, fragments, ReportBuilder.header.
  rewrite bind_run, append_run; cbv beta iota.
  rewrite bind_run, append_run; cbv beta iota.
  rewrite append_run. simpl ReportBuilder.parts.
  rewrite <- !app_assoc. reflexivity.
Qed.

Lemma for_each_exec (calls : list call) (b : ReportBuilder.t) :
  for_each calls exec b
  = (inr tt, ReportBuilder.Make
               (ReportBuilder.parts b ++ concat (fragments <$> calls))).
Proof.
  revert b. induction calls as [|c calls IH]; intros b.
  - destruct b. simpl. rewrite app_nil_r. reflexivity.
  - rewrite for_each_cons, bind_run, exec_run, IH. simpl.
    rewrite <- app_assoc. reflexivity.
Qed.

(** C10.  [build] is pure and idempotent: it returns the concatenation of
    the builder's parts and leaves the builder as it was, so two consecutive
    calls return equal strings; and after any sequence of [add], [separator]
    and [header] calls, on a new builder or on any other, it returns the
    fragments those calls appended, concatenated in the order of the
    calls. *)
Theorem build_is_pure_and_idempotent (b : ReportBuilder.t) (calls : list call) :
  ReportBuilder.build b = (inr (String.concat "" (ReportBuilder.parts b)), b)
  /\ (s1 ← ReportBuilder.build; s2 ← ReportBuilder.build; mret (s1, s2)) b
     = (inr (String.concat "" (ReportBuilder.parts b),
             String.concat "" (ReportBuilder.parts b)), b)
  /\ (for_each calls exec;; ReportBuilder.build) ReportBuilder.__init__
     = (inr (String.concat "" (concat (fragments <$> calls))),
        ReportBuilder.Make (concat (fragments <$> calls)))
  /\ (for_each calls exec;; ReportBuilder.build) b
     = (inr (String.concat "" (ReportBuilder.parts b)
             +:+ String.concat "" (concat (fragments <$> calls))),
        ReportBuilder.Make (ReportBuilder.parts b ++ concat (fragments <$> calls))).
Proof.
  split; [reflexivity |]. split; [reflexivity |]. split.
  - rewrite bind_run, for_each_exec. reflexivity.
  - rewrite bind_run, for_each_exec, build_run. simpl ReportBuilder.parts.
    rewrite concat_app. reflexivity.
Qed.

(** C8, as stated, fails: an append made after [build] is accepted, and it
    extends what the next [build] returns. *)
Lemma append_after_build_is_accepted :
  ~ (forall (b : ReportBuilder.t) (c : call),
       fst ((ReportBuilder.build;; exec c) b) <> inr tt)
  /\ ~ (forall (b : ReportBuilder.t) (c : call),
          fst ((ReportBuilder.build;; exec c;; ReportBuilder.build) b)
          = fst (ReportBuilder.build b)).
Proof.
  split; intros Hsealed.
  - exact (Hsealed ReportBuilder.__init__ (Add "x") eq_refl).
  - specialize (Hsealed ReportBuilder.__init__ (Add "x")).
    vm_compute in Hsealed. discriminate Hsealed.
Qed.

(** C8, amended.  [build] does not seal the builder: after [build], every
    [add], [separator] or [header] still succeeds and appends its fragments,
    and the next [build] returns the content built before followed by
    them; the string already returned is a value of its own and is not
    changed. *)
Theorem builder_stays_open_after_build (b : ReportBuilder.t) (c : call) :
  (s ← ReportBuilder.build; exec c;; s' ← ReportBuilder.build; mret (s, s')) b
  = (inr (String.concat "" (ReportBuilder.parts b),
          String.concat "" (ReportBuilder.parts b)
          +:+ String.concat "" (fragments c)),
     ReportBuilder.Make (ReportBuilder.parts b ++ fragments c)).
Proof.
  rewrite bind_run, build_run, bind_run, exec_run, bind_run, build_run.
  simpl ReportBuilder.parts. rewrite concat_app. reflexivity.
Qed.
End Builder.

(** ** Which exceptions a computation can raise *)

Lemma raises_only_ret {A} (P : exn -> Prop) (x : A) : raises_only P (inr x).
Proof. intros e [=]. Qed.

Lemma raises_only_bind {A B} (P : exn -> Prop) (r : result A)
    (f : A -> result B) :
  raises_only P r -> (forall x, raises_only P (f x)) -> raises_only P (r ≫= f).
Proof.
  intros Hr Hf e. destruct r as [e'|x]; simpl.
  - intros [= <-]. apply Hr. reflexivity.
  - apply Hf.
Qed.

Lemma raises_only_m_ret {S A} (P : exn -> Prop) (x : A) :
  raises_only_m (S := S) P (mret x).
Proof. intros s e [=]. Qed.

Lemma raises_only_m_lift {S A} (P : exn -> Prop) (r : result A) :
  raises_only P r -> raises_only_m (S := S) P (lift r).
Proof. intros Hr s. exact Hr. Qed.

Lemma raises_only_m_modify {S} (P : exn -> Prop) (f : S -> S) :
  raises_only_m P (modify f).
Proof. intros s e [=]. Qed.

Lemma raises_only_m_gets {S A} (P : exn -> Prop) (f : S -> A) :
  raises_only_m P (gets f).
Proof. intros s e [=]. Qed.

Lemma raises_only_m_bind {S A B} (P : exn -> Prop) (m : M S A)
    (f : A -> M S B) :
  raises_only_m P m -> (forall x, raises_only_m P (f x)) ->
  raises_only_m P (m ≫= f).
Proof.
  intros Hm Hf s e. rewrite bind_run.
  specialize (Hm s). destruct (m s) as [[e'|x] s']; simpl in *.
  - intros [= <-]. apply Hm. reflexivity.
  - apply Hf.
Qed.

Lemma raises_only_m_for_each {S A} (P : exn -> Prop) (xs : list A)
    (body : A -> M S unit) :
  (forall x, raises_only_m P (body x)) -> raises_only_m P (for_each xs body).
Proof.
  intros Hbody. induction xs as [|x xs IH].
  - apply raises_only_m_ret.
  - rewrite for_each_cons. apply raises_only_m_bind; [apply Hbody | intros _; exact IH].
Qed.

Lemma getitem_raises {V} (d : gmap string V) (k : string) :
  raises_only implemented (getitem d k).
Proof. unfold getitem. destruct (d !! k); intros e [= <-]. discriminate. Qed.

Lemma int_of_raises (x : scalar) : raises_only implemented (int_of x).
Proof. destruct x; intros e [= <-]. discriminate. Qed.

Lemma format_2f_raises (n : Z) : raises_only implemented (format_2f n).
Proof.
  unfold format_2f. apply raises_only_bind; [| intros; apply raises_only_ret].
  unfold float_of_int. repeat case_match; intros e [= <-]; discriminate.
Qed.

(** ** The report templates *)

Section Reports.
Import Ejercicio2 Props2.

Lemma rows_of_raises (v : value) : raises_only implemented (rows_of v).
Proof.
  destruct v as [[n|s]|d|l]; simpl; repeat case_decide; intros e [= <-]; discriminate.
Qed.

Lemma sum_from_raises (acc : Z) (key : string) (rows : list row) :
  raises_only implemented (sum_from acc key rows).
Proof.
  revert acc. induction rows as [|item rows IH]; intros acc; simpl.
  - apply raises_only_ret.
  - apply raises_only_bind; [apply getitem_raises | intros x].
    apply raises_only_bind; [apply int_of_raises | intros n]. apply IH.
Qed.

Lemma collect_raises (key : string) (rows : list row) :
  raises_only implemented (collect key rows).
Proof.
  induction rows as [|item rows IH]; simpl.
  - apply raises_only_ret.
  - apply raises_only_bind; [apply getitem_raises | intros x].
    apply raises_only_bind; [apply IH | intros; apply raises_only_ret].
Qed.

Lemma format_2f_scalar_raises (x : scalar) :
  raises_only implemented (format_2f_scalar x).
Proof.
  destruct x; simpl; [apply format_2f_raises |]. intros e [= <-]. discriminate.
Qed.

Lemma format_2f_value_raises (v : value) :
  raises_only implemented (format_2f_value v).
Proof.
  destruct v; simpl; [apply format_2f_scalar_raises | |]; intros e [= <-]; discriminate.
Qed.

Lemma sub_values_raises (a b : value) : raises_only implemented (sub_values a b).
Proof.
  unfold sub_values. repeat case_match; intros e [= <-]; discriminate.
Qed.

Lemma add_raises (P : exn -> Prop) (text : string) :
  raises_only_m P (ReportBuilder.add text).
Proof. intros s e [=]. Qed.

Lemma separator_raises (P : exn -> Prop) :
  raises_only_m P ReportBuilder.separator.
Proof. intros s e [=]. Qed.

Lemma header_raises (P : exn -> Prop) (title : string) :
  raises_only_m P (ReportBuilder.header title).
Proof. intros s e [=]. Qed.

Lemma build_raises (P : exn -> Prop) : raises_only_m P ReportBuilder.build.
Proof. intros s e [=]. Qed.

Ltac raises :=
  repeat first
    [ apply getitem_raises
    | apply rows_of_raises
    | apply sum_from_raises
    | apply collect_raises
    | apply format_2f_raises
    | apply format_2f_scalar_raises
    | apply format_2f_value_raises
    | apply sub_values_raises
    | apply add_raises
    | apply separator_raises
    | apply header_raises
    | apply build_raises
    | apply raises_only_m_ret
    | apply raises_only_ret
    | apply raises_only_m_lift
    | apply raises_only_m_for_each; intros ?
    | apply raises_only_m_bind; [| intros ?]
    | apply raises_only_bind; [| intros ?] ].

Lemma body_raises (rt : Runtime) (c : report_class) (data : gmap string value) :
  c <> ReportStrategy -> raises_only_m implemented (body c data).
Proof.
  intros Hc. destruct c; [congruence | | |]; simpl.
  - unfold SalesReport_body. raises.
  - unfold InventoryReport_body. raises.
  - unfold FinancialReport_body. raises.
Qed.

Lemma generate_raises (rt : Runtime) (c : report_class)
    (data : gmap string value) (timestamp : string) :
  c <> ReportStrategy -> raises_only implemented (generate c data timestamp).
Proof.
  intros Hc. unfold generate.
  apply (raises_only_m_bind implemented); [| intros t].
  - apply raises_only_m_lift. destruct c; [congruence | | |]; apply raises_only_ret.
  - raises. apply body_raises. exact Hc.
Qed.

(** *** Builder computations only append *)

Lemma appends_only_lift {A} (r : result A) : appends_only (lift r).
Proof.
  exists r, []. intros [parts]. rewrite lift_run. simpl.
  rewrite app_nil_r. reflexivity.
Qed.

Lemma appends_only_append (fragment : string) :
  appends_only (ReportBuilder.append fragment).
Proof. exists (inr tt), [fragment]. intros b. reflexivity. Qed.

Lemma appends_only_bind {A B} (m : M ReportBuilder.t A)
    (f : A -> M ReportBuilder.t B) :
  appends_only m -> (forall x, appends_only (f x)) -> appends_only (m ≫= f).
Proof.
  intros (r & frags & Hm) Hf. destruct r as [e|x].
  - exists (inl e), frags. intros b. rewrite bind_run, Hm. reflexivity.
  - destruct (Hf x) as (r' & frags' & Hfx).
    exists r', (frags ++ frags'). intros b.
    rewrite bind_run, Hm, Hfx. simpl. rewrite app_assoc. reflexivity.
Qed.

Lemma appends_only_for_each {A} (xs : list A)
    (body : A -> M ReportBuilder.t unit) :
  (forall x, appends_only (body x)) -> appends_only (for_each xs body).
Proof.
  intros Hbody. induction xs as [|x xs IH].
  - apply (appends_only_lift (inr tt)).
  - rewrite for_each_cons. apply appends_only_bind; [apply Hbody | intros _; exact IH].
Qed.

Ltac appends :=
  repeat first
    [ apply appends_only_lift
    | apply appends_only_append
    | apply appends_only_for_each; intros ?
    | apply appends_only_bind; [| intros ?] ].

Lemma body_appends_only (rt : Runtime) (c : report_class)
    (data : gmap string value) :
  appends_only (body c data).
Proof.
  destruct c; simpl.
  - apply (appends_only_lift (inl NotImplementedError)).
  - unfold SalesReport_body. appends.
  - unfold InventoryReport_body. appends.
  - unfold FinancialReport_body. appends.
Qed.

(** [len(set(xs))] does not depend on the order of [xs]. *)
Lemma count_distinct_perm (xs ys : list scalar) :
  xs ≡ₚ ys -> count_distinct xs = count_distinct ys.
Proof.
  intros Hperm. unfold count_distinct. f_equal.
  apply Permutation_length. apply NoDup_Permutation.
  - apply NoDup_remove_dups.
  - apply NoDup_remove_dups.
  - intros x. rewrite !elem_of_remove_dups. rewrite Hperm. reflexivity.
Qed.

Lemma getitem_lookup {V} (d : gmap string V) (k : string) (v : V) :
  d !! k = Some v -> getitem d k = inr v.
Proof. unfold getitem. intros ->. reflexivity. Qed.


Lemma appends_only_parts {A} (m : M ReportBuilder.t A) (b : ReportBuilder.t) :
  appends_only m ->
  exists rest, ReportBuilder.parts (snd (m b)) = ReportBuilder.parts b ++ rest.
Proof. intros (r & frags & Hm). exists frags. rewrite Hm. reflexivity. Qed.

(** C7.  The body hooks aggregate over the data alone.  On any data whose
    [sales] are two sales of amounts 10 and 20, [SalesReport.body] appends
    the lines [Total de ventas: $30.00] and [Número de transacciones: 2] to
    the builder.  On any data whose [items] have int quantities and the
    categories A, A and B in some order, [InventoryReport.body] appends the
    line with the total quantity and then the line [Categorías: 2].  In both
    cases what the hook appends, and whether it raises, does not depend on
    what the builder already holds. *)
Theorem body_aggregations (rt : Runtime) (sales_data inventory_data : gmap string value)
    (sale1 sale2 : row) (items : list row) (total_items : Z)
    (cats : list scalar) (b : ReportBuilder.t) :
  sales_data !! "sales" = Some (VList [sale1; sale2]) ->
  sale1 !! "amount" = Some (SInt 10) ->
  sale2 !! "amount" = Some (SInt 20) ->
  inventory_data !! "items" = Some (VList items) ->
  sum_field "quantity" items = inr total_items ->
  collect "category" items = inr cats ->
  cats ≡ₚ [SStr "A"; SStr "A"; SStr "B"] ->
  (exists rest,
     ReportBuilder.parts (snd (SalesReport_body sales_data b))
     = ReportBuilder.parts b
       ++ ["Total de ventas: $30.00" +:+ nl;
           "Número de transacciones: 2" +:+ nl] ++ rest)
  /\ (exists rest,
     ReportBuilder.parts (snd (InventoryReport_body inventory_data b))
     = ReportBuilder.parts b
       ++ ["Total de productos: " +:+ str_int total_items +:+ nl;
           "Categorías: 2" +:+ nl +:+ nl] ++ rest)
  /\ appends_only (SalesReport_body sales_data)
  /\ appends_only (InventoryReport_body inventory_data).
Proof.
  intros Hsales Ha1 Ha2 Hitems Hsum Hcats Hperm.
  split; [| split; [| split; [apply (body_appends_only rt SalesReport)
                            | apply (body_appends_only rt InventoryReport)]]].
  - unfold SalesReport_body.
    erewrite bind_run_ok;
      [| rewrite lift_run, (getitem_lookup _ _ _ Hsales); reflexivity].
    erewrite bind_run_ok;
      [| rewrite lift_run; unfold sum_field; simpl;
         rewrite (getitem_lookup _ _ _ Ha1); simpl;
         rewrite (getitem_lookup _ _ _ Ha2); reflexivity].
    erewrite bind_run_ok; [| rewrite lift_run; reflexivity].
    erewrite bind_run_ok; [| apply add_run].
    erewrite bind_run_ok; [| apply add_run].
    match goal with
    | |- context [snd (?m ?b0)] =>
        destruct (appends_only_parts m b0) as (rest & ->); [appends |]
    end.
    exists rest. simpl. rewrite <- !app_assoc. reflexivity.
  - unfold InventoryReport_body.
    erewrite bind_run_ok;
      [| rewrite lift_run, (getitem_lookup _ _ _ Hitems); reflexivity].
    erewrite bind_run_ok; [| rewrite lift_run, Hsum; reflexivity].
    erewrite bind_run_ok; [| rewrite lift_run, Hcats; reflexivity].
    rewrite (count_distinct_perm _ _ Hperm).
    erewrite bind_run_ok; [| apply add_run].
    erewrite bind_run_ok; [| apply add_run].
    match goal with
    | |- context [snd (?m ?b0)] =>
        destruct (appends_only_parts m b0) as (rest & ->); [appends |]
    end.
    exists rest. simpl. rewrite <- !app_assoc. reflexivity.
Qed.

Lemma body_aggregations_witness :
  exists rest,
    ReportBuilder.parts
      (snd (SalesReport_body (H := sample_runtime)
              (list_to_map
                 [("period", VScalar (SStr "Enero 2024"));
                  ("sales", VList [ {[ "amount" := SInt 10 ]};
                                    {[ "amount" := SInt 20 ]} ])])
              ReportBuilder.__init__))
    = ReportBuilder.parts ReportBuilder.__init__
      ++ ["Total de ventas: $30.00" +:+ nl;
          "Número de transacciones: 2" +:+ nl] ++ rest.
Proof.
  refine (proj1 (body_aggregations sample_runtime
            (list_to_map
               [("period", VScalar (SStr "Enero 2024"));
                ("sales", VList [ {[ "amount" := SInt 10 ]};
                                  {[ "amount" := SInt 20 ]} ])])
            (list_to_map
               [("items", VList
                   [ list_to_map [("category", SStr "A"); ("quantity", SInt 1)];
                     list_to_map [("category", SStr "B"); ("quantity", SInt 2)];
                     list_to_map [("category", SStr "A"); ("quantity", SInt 3)] ])])
            {[ "amount" := SInt 10 ]} {[ "amount" := SInt 20 ]}
            [ list_to_map [("category", SStr "A"); ("quantity", SInt 1)];
              list_to_map [("category", SStr "B"); ("quantity", SInt 2)];
              list_to_map [("category", SStr "A"); ("quantity", SInt 3)] ]
            6 [SStr "A"; SStr "B"; SStr "A"] ReportBuilder.__init__
            _ _ _ _ _ _ _));
    try (vm_compute; reflexivity).
  apply Permutation_skip. apply Permutation_swap.
Defined.
End Reports.

(** ** The report flow *)

Section ReportFlow.
Import Ejercicio2 Props2.

Lemma report_strategies_lookup (k : string) :
  ReportFactory._strategies !! k =
  if decide (k = "sales") then Some SalesReport
  else if decide (k = "inventory") then Some InventoryReport
  else if decide (k = "financial") then Some FinancialReport
  else None.
Proof.
  unfold ReportFactory._strategies. simpl.
  rewrite !lookup_insert, lookup_empty.
  repeat case_decide; congruence.
Qed.

Lemma format_strategies_lookup (k : string) :
  FormatFactory._strategies !! k =
  if decide (k = "pdf") then Some PDFFormatter
  else if decide (k = "excel") then Some ExcelFormatter
  else if decide (k = "html") then Some HTMLFormatter
  else None.
Proof.
  unfold FormatFactory._strategies. simpl.
  rewrite !lookup_insert, lookup_empty.
  repeat case_decide; congruence.
Qed.

Lemma delivery_strategies_lookup (k : string) :
  DeliveryFactory._strategies !! k =
  if decide (k = "email") then Some EmailDelivery
  else if decide (k = "download") then Some DownloadDelivery
  else if decide (k = "cloud") then Some CloudDelivery
  else None.
Proof.
  unfold DeliveryFactory._strategies. simpl.
  rewrite !lookup_insert, lookup_empty.
  repeat case_decide; congruence.
Qed.

Lemma report_create_concrete (k : string) (c : report_class) :
  ReportFactory.create k = inr c -> c <> ReportStrategy.
Proof.
  unfold ReportFactory.create. rewrite report_strategies_lookup.
  repeat case_decide; intros [= <-]; discriminate.
Qed.

Lemma format_create_concrete (k : string) (c : format_class) :
  FormatFactory.create k = inr c -> c <> FormatStrategy.
Proof.
  unfold FormatFactory.create. rewrite format_strategies_lookup.
  repeat case_decide; intros [= <-]; discriminate.
Qed.

Lemma delivery_create_concrete (k : string) (c : delivery_class) :
  DeliveryFactory.create k = inr c -> c <> DeliveryStrategy.
Proof.
  unfold DeliveryFactory.create. rewrite delivery_strategies_lookup.
  repeat case_decide; intros [= <-]; discriminate.
Qed.

(** A concrete formatter prints one line and returns the wrapped content. *)
Lemma format_run (c : format_class) (content : string) (w : world) :
  c <> FormatStrategy ->
  exists formatted line,
    format c content w
    = (inr formatted, World (heap w) (stdout w ++ [line]) (clock w)).
Proof.
  intros Hc. destruct c; [congruence | | |]; eexists _, _; reflexivity.
Qed.

(** A concrete delivery only prints and reads the clock. *)
Lemma deliver_run (rt : Runtime) (c : delivery_class)
    (formatted_report report_type output_format : string) (w : world) :
  c <> DeliveryStrategy ->
  exists lines reads,
    deliver c formatted_report report_type output_format w
    = (inr tt, World (heap w) (stdout w ++ lines) (reads + clock w)).
Proof.
  intros Hc. destruct c; [congruence | | |].
  - eexists [_; _], 0%nat. unfold deliver.
    rewrite bind_run, !print_run. simpl. rewrite <- app_assoc. reflexivity.
  - eexists [_; _], 1%nat. unfold deliver.
    rewrite bind_run. unfold datetime_now. cbv beta iota zeta.
    rewrite bind_run, !print_run. simpl. rewrite <- app_assoc. reflexivity.
  - eexists [_; _], 0%nat. unfold deliver.
    rewrite bind_run, !print_run. simpl. rewrite <- app_assoc. reflexivity.
Qed.

(** The record [generate_report] saves. *)
Lemma history_record_fields (report_type output_format delivery_method
    timestamp : string) :
  let r : record :=
    list_to_map [("type", SStr report_type); ("format", SStr output_format);
                 ("delivery", SStr delivery_method);
                 ("timestamp", SStr timestamp)] in
  r !! "type" = Some (SStr report_type)
  /\ r !! "format" = Some (SStr output_format)
  /\ r !! "delivery" = Some (SStr delivery_method)
  /\ r !! "timestamp" = Some (SStr timestamp).
Proof.
  simpl. rewrite !lookup_insert. repeat split; repeat case_decide; congruence.
Qed.

(** When the three lookups and the generation succeed, the run goes
    through: the formatter and the delivery only print, and one record is
    saved. *)
Lemma generate_report_run (rt : Runtime) (self : ReportSystem.t)
    (report_type : string) (data : gmap string value)
    (output_format delivery_method : string) (w : world)
    (rs : report_class) (fs : format_class) (ds : delivery_class)
    (content : string) :
  let timestamp := strftime (now (clock w)) "%Y-%m-%d %H:%M:%S" in
  ReportFactory.create report_type = inr rs ->
  FormatFactory.create output_format = inr fs ->
  DeliveryFactory.create delivery_method = inr ds ->
  generate rs data timestamp = inr content ->
  exists formatted w1 w',
    format fs content (World (heap w) (stdout w) (S (clock w)))
    = (inr formatted, w1)
    /\ ReportSystem.generate_report self report_type data output_format
         delivery_method w = (inr formatted, w')
    /\ heap w'
       = alter (fun xs => xs ++ [list_to_map
                  [("type", SStr report_type); ("format", SStr output_format);
                   ("delivery", SStr delivery_method);
                   ("timestamp", SStr timestamp)]])
           (HistoryManager._reports (ReportSystem.history self)) (heap w).
Proof.
  intros timestamp Hrs Hfs Hds Hgen.
  destruct (format_run fs content (World (heap w) (stdout w) (S (clock w)))
              (format_create_concrete _ _ Hfs)) as (formatted & line & Hformat).
  destruct (deliver_run rt ds formatted report_type output_format
              (World (heap w) (stdout w ++ [line]) (S (clock w)))
              (delivery_create_concrete _ _ Hds)) as (lines & reads & Hdeliver).
  simpl in Hformat, Hdeliver.
  eexists formatted, _, _. split; [exact Hformat |].
  unfold ReportSystem.generate_report.
  erewrite bind_run_ok; [| reflexivity].
  erewrite bind_run_ok; [| rewrite lift_run, Hrs; reflexivity].
  erewrite bind_run_ok; [| rewrite lift_run, Hfs; reflexivity].
  erewrite bind_run_ok; [| rewrite lift_run, Hds; reflexivity].
  erewrite bind_run_ok; [| rewrite lift_run; fold timestamp; rewrite Hgen; reflexivity].
  erewrite bind_run_ok; [| exact Hformat].
  erewrite bind_run_ok; [| exact Hdeliver].
  erewrite bind_run_ok; [| apply list_append_run].
  erewrite bind_run_ok; [| apply print_run].
  erewrite bind_run_ok; [| apply print_run].
  erewrite bind_run_ok; [| apply print_run].
  split; reflexivity.
Qed.

(** When a lookup or the generation fails, the run stops there: only the
    clock has been read. *)
Lemma generate_report_fails (rt : Runtime) (self : ReportSystem.t)
    (report_type : string) (data : gmap string value)
    (output_format delivery_method : string) (w w' : world) (e : exn) :
  ReportSystem.generate_report self report_type data output_format
    delivery_method w = (inl e, w') ->
  w' = World (heap w) (stdout w) (S (clock w))
  /\ (rs ← ReportFactory.create report_type;
      _ ← FormatFactory.create output_format;
      _ ← DeliveryFactory.create delivery_method;
      generate rs data (strftime (now (clock w)) "%Y-%m-%d %H:%M:%S"))
     = inl e.
Proof.
  intros Hrun.
  destruct (ReportFactory.create report_type) as [e1|rs] eqn:Hrs.
  { unfold ReportSystem.generate_report in Hrun.
    erewrite bind_run_ok in Hrun; [| reflexivity].
    erewrite bind_run_err in Hrun; [| rewrite lift_run, Hrs; reflexivity].
    injection Hrun as <- <-. auto. }
  destruct (FormatFactory.create output_format) as [e1|fs] eqn:Hfs.
  { unfold ReportSystem.generate_report in Hrun.
    erewrite bind_run_ok in Hrun; [| reflexivity].
    erewrite bind_run_ok in Hrun; [| rewrite lift_run, Hrs; reflexivity].
    erewrite bind_run_err in Hrun; [| rewrite lift_run, Hfs; reflexivity].
    injection Hrun as <- <-. auto. }
  destruct (DeliveryFactory.create delivery_method) as [e1|ds] eqn:Hds.
  { unfold ReportSystem.generate_report in Hrun.
    erewrite bind_run_ok in Hrun; [| reflexivity].
    erewrite bind_run_ok in Hrun; [| rewrite lift_run, Hrs; reflexivity].
    erewrite bind_run_ok in Hrun; [| rewrite lift_run, Hfs; reflexivity].
    erewrite bind_run_err in Hrun; [| rewrite lift_run, Hds; reflexivity].
    injection Hrun as <- <-. auto. }
  destruct (generate rs data (strftime (now (clock w)) "%Y-%m-%d %H:%M:%S"))
    as [e1|content] eqn:Hgen.
  { unfold ReportSystem.generate_report in Hrun.
    erewrite bind_run_ok in Hrun; [| reflexivity].
    erewrite bind_run_ok in Hrun; [| rewrite lift_run, Hrs; reflexivity].
    erewrite bind_run_ok in Hrun; [| rewrite lift_run, Hfs; reflexivity].
    erewrite bind_run_ok in Hrun; [| rewrite lift_run, Hds; reflexivity].
    erewrite bind_run_err in Hrun; [| rewrite lift_run, Hgen; reflexivity].
    injection Hrun as <- <-. simpl. auto. }
  destruct (generate_report_run rt self report_type data output_format
              delivery_method w rs fs ds content Hrs Hfs Hds Hgen)
    as (formatted & w1 & w2 & _ & Hok & _).
  rewrite Hok in Hrun. discriminate Hrun.
Qed.


Lemma format_2f_values :
  format_2f 50000 = inr "50000.00" /\ format_2f 32000 = inr "32000.00"
  /\ format_2f (50000 - 32000) = inr "18000.00".
Proof. vm_compute. auto. Qed.

Lemma financial_body_run (rt : Runtime) (data : gmap string value)
    (b : ReportBuilder.t) :
  data !! "income" = Some (VScalar (SInt 50000)) ->
  data !! "expenses" = Some (VScalar (SInt 32000)) ->
  FinancialReport_body data b
  = (inr tt, ReportBuilder.Make
               (ReportBuilder.parts b
                ++ ["Ingresos: $50000.00" +:+ nl; "Gastos: $32000.00" +:+ nl;
                    "Balance: $18000.00" +:+ nl])).
Proof.
  intros Hincome Hexpenses.
  destruct format_2f_values as (Hi & He & Hb).
  unfold FinancialReport_body.
  erewrite bind_run_ok;
    [| rewrite lift_run, (getitem_lookup _ _ _ Hincome); reflexivity].
  erewrite bind_run_ok;
    [| rewrite lift_run, (getitem_lookup _ _ _ Hexpenses); reflexivity].
  erewrite bind_run_ok; [| rewrite lift_run; reflexivity].
  erewrite bind_run_ok;
    [| rewrite lift_run; unfold format_2f_value, format_2f_scalar;
       rewrite Hi; reflexivity].
  erewrite bind_run_ok; [| apply add_run].
  erewrite bind_run_ok;
    [| rewrite lift_run; unfold format_2f_value, format_2f_scalar;
       rewrite He; reflexivity].
  erewrite bind_run_ok; [| apply add_run].
  erewrite bind_run_ok; [| rewrite lift_run, Hb; reflexivity].
  rewrite add_run. simpl ReportBuilder.parts.
  rewrite <- !app_assoc. reflexivity.
Qed.


Lemma financial_content (rt : Runtime) (data : gmap string value)
    (timestamp : string) :
  data !! "income" = Some (VScalar (SInt 50000)) ->
  data !! "expenses" = Some (VScalar (SInt 32000)) ->
  generate FinancialReport data timestamp
  = inr (String.concat ""
           ([str_mul "=" 60 +:+ nl; "           REPORTE FINANCIERO" +:+ nl;
             str_mul "=" 60 +:+ nl;
             ("Fecha de generación: " +:+ timestamp +:+ nl) +:+ nl;
             "Ingresos: $50000.00" +:+ nl]
            ++ ["Gastos: $32000.00" +:+ nl; "Balance: $18000.00" +:+ nl])).
Proof.
  intros Hincome Hexpenses. unfold generate.
  erewrite bind_run_ok; [| rewrite lift_run; reflexivity].
  erewrite bind_run_ok; [| apply (exec_run (Header _))].
  erewrite bind_run_ok; [| apply add_run].
  erewrite bind_run_ok;
    [| apply (financial_body_run rt data _ Hincome Hexpenses)].
  rewrite build_run. reflexivity.
Qed.

Lemma create_financial_html_cloud :
  ReportFactory.create "financial" = inr FinancialReport
  /\ FormatFactory.create "html" = inr HTMLFormatter
  /\ DeliveryFactory.create "cloud" = inr CloudDelivery.
Proof. vm_compute. auto. Qed.

Lemma html_format_run (content : string) (w : world) :
  format HTMLFormatter content w
  = (inr ("<html><body><pre>" +:+ nl +:+ content +:+ nl
          +:+ "</pre></body></html>"),
     World (heap w) (stdout w ++ ["🌐 Generando reporte en formato HTML..."])
           (clock w)).
Proof. reflexivity. Qed.

(** The last line of a text built from lines. *)
Lemma contains_last_line (parts : list string) (prev line : string) :
  contains (nl +:+ line +:+ nl)
    (String.concat "" (parts ++ [prev +:+ nl; line +:+ nl])).
Proof.
  exists (String.concat "" parts +:+ prev), "".
  rewrite concat_app, !concat_cons. change (String.concat "" []) with "".
  rewrite !append_assoc, !append_nil_r. reflexivity.
Qed.

(** C2.  Running the report pipeline with report type ["financial"], data
    whose income is 50000 and whose expenses are 32000, format ["html"] and
    delivery ["cloud"] succeeds; the text returned is the generated content
    between the markers of the HTML formatter, the content contains the
    line [Balance: $18000.00], and exactly one record is appended to the
    history, with type ["financial"], format ["html"] and delivery
    ["cloud"]. *)
Theorem financial_html_cloud_run (rt : Runtime) (self : ReportSystem.t)
    (data : gmap string value) (w : world) (h : list record) :
  data !! "income" = Some (VScalar (SInt 50000)) ->
  data !! "expenses" = Some (VScalar (SInt 32000)) ->
  deref w (ReportSystem.get_report_history self) = Some h ->
  exists content w' r,
    ReportSystem.generate_report self "financial" data "html" "cloud" w
    = (inr ("<html><body><pre>" +:+ nl +:+ content +:+ nl
            +:+ "</pre></body></html>"), w')
    /\ contains (nl +:+ "Balance: $18000.00" +:+ nl) content
    /\ deref w' (ReportSystem.get_report_history self) = Some (h ++ [r])
    /\ r !! "type" = Some (SStr "financial")
    /\ r !! "format" = Some (SStr "html")
    /\ r !! "delivery" = Some (SStr "cloud").
Proof.
  intros Hincome Hexpenses Hh.
  pose proof (financial_content rt data
                (strftime (now (clock w)) "%Y-%m-%d %H:%M:%S")
                Hincome Hexpenses) as Hgen.
  pose proof (contains_last_line
                [str_mul "=" 60 +:+ nl; "           REPORTE FINANCIERO" +:+ nl;
                 str_mul "=" 60 +:+ nl;
                 ("Fecha de generación: "
                  +:+ strftime (now (clock w)) "%Y-%m-%d %H:%M:%S" +:+ nl)
                 +:+ nl;
                 "Ingresos: $50000.00" +:+ nl]
                "Gastos: $32000.00" "Balance: $18000.00") as Hline.
  revert Hgen Hline. generalize (String.concat ""
           ([str_mul "=" 60 +:+ nl; "           REPORTE FINANCIERO" +:+ nl;
             str_mul "=" 60 +:+ nl;
             ("Fecha de generación: "
              +:+ strftime (now (clock w)) "%Y-%m-%d %H:%M:%S" +:+ nl) +:+ nl;
             "Ingresos: $50000.00" +:+ nl]
            ++ ["Gastos: $32000.00" +:+ nl; "Balance: $18000.00" +:+ nl])).
  intros content Hgen Hline.
  destruct create_financial_html_cloud as (Hrs & Hfs & Hds).
  destruct (generate_report_run rt self "financial" data "html" "cloud" w
              FinancialReport HTMLFormatter CloudDelivery content
              Hrs Hfs Hds Hgen)
    as (formatted & w1 & w' & Hformat & Hrun & Hheap).
  rewrite html_format_run in Hformat. injection Hformat as <- _.
  exists content, w'. eexists. split; [exact Hrun |].
  split; [exact Hline |]. split.
  { unfold deref, ReportSystem.get_report_history, HistoryManager.get_all in *.
    rewrite Hheap, lookup_alter, decide_True by reflexivity.
    rewrite Hh. reflexivity. }
  pose proof (history_record_fields "financial" "html" "cloud"
                (strftime (now (clock w)) "%Y-%m-%d %H:%M:%S")) as Hr.
  cbv zeta in Hr. tauto.
Qed.

Lemma financial_html_cloud_run_witness :
  exists content w' r,
    ReportSystem.generate_report (H := sample_runtime)
      (ReportSystem.Make (HistoryManager.Make 1)) "financial" financial_data
      "html" "cloud" (World {[ 1%positive := [] ]} [] 0)
    = (inr ("<html><body><pre>" +:+ nl +:+ content +:+ nl
            +:+ "</pre></body></html>"), w')
    /\ contains (nl +:+ "Balance: $18000.00" +:+ nl) content
    /\ deref w' 1%positive = Some ([] ++ [r])
    /\ r !! "type" = Some (SStr "financial")
    /\ r !! "format" = Some (SStr "html")
    /\ r !! "delivery" = Some (SStr "cloud").
Proof.
  apply (financial_html_cloud_run sample_runtime
           (ReportSystem.Make (HistoryManager.Make 1)) financial_data
           (World {[ 1%positive := [] ]} [] 0) []);
    vm_compute; reflexivity.
Defined.
End ReportFlow.

(** ** Failures *)

Section Failures.
Import Props1 Props2.

(** C3, as stated, fails: a dispatch that stops at a channel that is not
    registered has already saved the records of the channels before it. *)
Lemma failed_dispatch_keeps_earlier_records :
  ~ (forall (rt : Runtime) (proc : Ejercicio1.OrderProcessor.t)
       (order_data : gmap string value) (notification_types : list string)
       (w w' : world) (e : exn),
       Ejercicio1.OrderProcessor.process_order proc order_data
         notification_types w = (inl e, w') ->
       deref w' (Ejercicio1.OrderProcessor.get_history proc)
       = deref w (Ejercicio1.OrderProcessor.get_history proc)).
Proof.
  intros Hclaim.
  pose proof (Hclaim sample_runtime
                (Ejercicio1.OrderProcessor.Make
                   (Ejercicio1.HistoryManager.Make 1))
                sample_order ["email"; "fax"]
                (World {[ 1%positive := [] ]} [] 0)) as Hrun.
  destruct (Ejercicio1.OrderProcessor.process_order (H := sample_runtime)
              (Ejercicio1.OrderProcessor.Make
                 (Ejercicio1.HistoryManager.Make 1))
              sample_order ["email"; "fax"]
              (World {[ 1%positive := [] ]} [] 0)) as [[e|[]] w'] eqn:Hout.
  - specialize (Hrun w' e eq_refl).
    vm_compute in Hout. injection Hout as _ <-.
    vm_compute in Hrun. discriminate Hrun.
  - vm_compute in Hout. discriminate Hout.
Qed.

(** C3, amended.  A report run that fails (a key that is not registered, or
    a field the report needs that is missing) saves no record and prints
    nothing: all three lookups and the generation come before the first
    side effect.  An order dispatch that fails because a required field is
    missing leaves the world as it was.  An order dispatch that fails at a
    channel that is not registered raises the [ValueError] of the factory
    and leaves the world that the dispatch over the channels before it
    leaves: one record per earlier channel, of that channel's type and in
    order, and nothing for the failing channel or the ones after it. *)
Theorem failure_leaves_completed_records (rt : Runtime)
    (sys : Ejercicio2.ReportSystem.t) (proc : Ejercicio1.OrderProcessor.t)
    (report_type : string) (data : gmap string value)
    (output_format delivery_method : string)
    (order_data : gmap string value) (notification_types : list string)
    (w : world) (h : list record) :
  deref w (Ejercicio1.OrderProcessor.get_history proc) = Some h ->
  (forall e w',
     Ejercicio2.ReportSystem.generate_report sys report_type data
       output_format delivery_method w = (inl e, w') ->
     heap w' = heap w /\ stdout w' = stdout w)
  /\ (forall e w',
     Ejercicio1.OrderProcessor.process_order proc order_data
       notification_types w = (inl e, w') ->
     (Ejercicio1.OrderInfo.__init__ order_data = inl e /\ w' = w)
     \/ exists done k rest rs,
          notification_types = done ++ k :: rest
          /\ Ejercicio1.NotificationFactory._strategies !! k = None
          /\ e = ValueError ("Tipo de notificación desconocido: " +:+ k)
          /\ Ejercicio1.OrderProcessor.process_order proc order_data done w
             = (inr tt, w')
          /\ deref w' (Ejercicio1.OrderProcessor.get_history proc)
             = Some (h ++ rs)
          /\ types_are rs done).
Proof.
  intros Hh. split.
  - intros e w' Hrun.
    destruct (generate_report_fails rt sys _ _ _ _ _ _ _ Hrun) as [-> _].
    split; reflexivity.
  - intros e w' Hrun.
    destruct (Ejercicio1.OrderInfo.__init__ order_data) as [e0|info] eqn:Hinfo.
    + rewrite (process_order_invalid rt proc _ _ _ w Hinfo) in Hrun.
      injection Hrun as <- <-. left. auto.
    + right.
      destruct (process_order_valid rt proc order_data info w Hinfo)
        as (banner & Hfull).
      rewrite Hfull in Hrun.
      destruct (notify_loop rt (Ejercicio1.OrderProcessor.history proc) info
                  notification_types
                  (World (heap w) (stdout w ++ banner) (clock w)) h Hh)
        as (done & rs & w1 & Hdone & Hd & Hty & [-> | (k & rest & -> & Hk & Hfail)]).
      * cbv zeta in Hdone. rewrite Hdone in Hrun. discriminate Hrun.
      * cbv zeta in Hfail, Hdone. rewrite Hfail in Hrun.
        injection Hrun as <- <-.
        exists done, k, rest, rs. rewrite Hfull.
        repeat split; assumption.
Qed.

Lemma failure_leaves_completed_records_witness :
  heap (snd (Ejercicio2.ReportSystem.generate_report (H := sample_runtime)
               (Ejercicio2.ReportSystem.Make (Ejercicio2.HistoryManager.Make 1))
               "financial" financial_data "docx" "cloud"
               (World {[ 1%positive := [] ]} [] 0)))
  = {[ 1%positive := [] ]}.
Proof.
  assert (Hlog : deref (World {[ 1%positive := [] ]} [] 0)
                   (Ejercicio1.OrderProcessor.get_history
                      (Ejercicio1.OrderProcessor.Make
                         (Ejercicio1.HistoryManager.Make 1))) = Some [])
    by (vm_compute; reflexivity).
  pose proof (proj1 (failure_leaves_completed_records sample_runtime
                (Ejercicio2.ReportSystem.Make (Ejercicio2.HistoryManager.Make 1))
                (Ejercicio1.OrderProcessor.Make
                   (Ejercicio1.HistoryManager.Make 1))
                "financial" financial_data "docx" "cloud"
                sample_order ["email"; "fax"]
                (World {[ 1%positive := [] ]} [] 0) [] Hlog)) as Hfail.
  destruct (Ejercicio2.ReportSystem.generate_report (H := sample_runtime)
              (Ejercicio2.ReportSystem.Make (Ejercicio2.HistoryManager.Make 1))
              "financial" financial_data "docx" "cloud"
              (World {[ 1%positive := [] ]} [] 0)) as [[e|out] w'] eqn:Hout.
  - exact (proj1 (Hfail e w' eq_refl)).
  - vm_compute in Hout. discriminate Hout.
Defined.
End Failures.

(** ** The factories *)

Section Factories.
Import Props1 Props2.

(** C1.  In each of the four registries, [create] on a registered key
    returns an instance of the registered class, whose method ([send],
    [generate], [format], [deliver]) is implemented: it never ends in the
    [NotImplementedError] of the abstract base class.  On any other key
    [create] raises the [ValueError] of the factory (the unknown-strategy
    error), and it raises in no other case. *)
Theorem create_returns_registered_strategy (k : string) :
  create_spec Ejercicio1.NotificationFactory._strategies
    Ejercicio1.NotificationFactory.create implements_send k
  /\ create_spec Ejercicio2.ReportFactory._strategies
       Ejercicio2.ReportFactory.create implements_generate k
  /\ create_spec Ejercicio2.FormatFactory._strategies
       Ejercicio2.FormatFactory.create implements_format k
  /\ create_spec Ejercicio2.DeliveryFactory._strategies
       Ejercicio2.DeliveryFactory.create implements_deliver k.
Proof.
  unfold create_spec. repeat split.
  - destruct (Ejercicio1.NotificationFactory._strategies !! k) as [c|] eqn:Hk.
    + split; [apply create_registered; exact Hk |].
      intros rt info w e He.
      destruct (send_registered k c info w Hk) as (r & w' & Hsend & _).
      rewrite Hsend in He. discriminate He.
    + eexists. apply create_unregistered. exact Hk.
  - unfold Ejercicio2.ReportFactory.create.
    destruct (Ejercicio2.ReportFactory._strategies !! k) as [c|] eqn:Hk.
    + split; [reflexivity |]. intros rt data timestamp.
      apply generate_raises. apply (report_create_concrete k).
      unfold Ejercicio2.ReportFactory.create. rewrite Hk. reflexivity.
    + eexists. reflexivity.
  - unfold Ejercicio2.FormatFactory.create.
    destruct (Ejercicio2.FormatFactory._strategies !! k) as [c|] eqn:Hk.
    + split; [reflexivity |]. intros content w e He.
      destruct (format_run c content w) as (out & line & Hrun).
      { apply (format_create_concrete k).
        unfold Ejercicio2.FormatFactory.create. rewrite Hk. reflexivity. }
      rewrite Hrun in He. discriminate He.
    + eexists. reflexivity.
  - unfold Ejercicio2.DeliveryFactory.create.
    destruct (Ejercicio2.DeliveryFactory._strategies !! k) as [c|] eqn:Hk.
    + split; [reflexivity |].
      intros rt formatted_report report_type output_format w e He.
      destruct (deliver_run rt c formatted_report report_type output_format w)
        as (lines & reads & Hrun).
      { apply (delivery_create_concrete k).
        unfold Ejercicio2.DeliveryFactory.create. rewrite Hk. reflexivity. }
      rewrite Hrun in He. discriminate He.
    + eexists. reflexivity.
Qed.
End Factories.

(** ** Further properties of the notification flow *)

Section MoreNotifications.
Import Ejercicio1 Props1 Props3.

(** X1.  [OrderInfo] succeeds exactly when the raw order holds a dict under
    [customer] with [name], [email], [phone] and [device_id], and holds
    [order_id] and [total]; the object then carries those seven values as
    they are, without any conversion. *)
Theorem order_info_succeeds_iff (order_data : gmap string value)
    (info : OrderInfo.t) :
  OrderInfo.__init__ order_data = inr info <->
  exists c,
    order_data !! "customer" = Some (VDict c)
    /\ OrderInfo.customer info = VDict c
    /\ order_data !! "order_id" = Some (OrderInfo.order_id info)
    /\ order_data !! "total" = Some (OrderInfo.total info)
    /\ c !! "name" = Some (OrderInfo.name info)
    /\ c !! "email" = Some (OrderInfo.email info)
    /\ c !! "phone" = Some (OrderInfo.phone info)
    /\ c !! "device_id" = Some (OrderInfo.device info).
Proof.
  unfold OrderInfo.__init__, getitem. split.
  - destruct (order_data !! "customer") as [cust|]; simpl; [| discriminate].
    destruct (order_data !! "order_id") as [oid|]; simpl; [| discriminate].
    destruct (order_data !! "total") as [tot|]; simpl; [| discriminate].
    destruct cust as [x|c|l]; simpl; try discriminate.
    unfold getitem.
    destruct (c !! "name") as [n|] eqn:Hn; simpl; [| discriminate].
    destruct (c !! "email") as [e|] eqn:He; simpl; [| discriminate].
    destruct (c !! "phone") as [p|] eqn:Hp; simpl; [| discriminate].
    destruct (c !! "device_id") as [d|] eqn:Hd; simpl; [| discriminate].
    intros [= <-]. exists c. simpl. auto 10.
  - intros (c & -> & Hc & -> & -> & Hn & He & Hp & Hd). simpl.
    unfold getitem. rewrite Hn, He, Hp, Hd. simpl.
    destruct info; simpl in *. subst. reflexivity.
Qed.

(** X2.  When the [customer] entry is not a dict, [OrderInfo] still reads
    [order_id] and [total] first: it raises [KeyError] for the first of the
    two that is missing, and [TypeError] (at the read of the name) only when
    both are there. *)
Theorem order_info_customer_not_dict (order_data : gmap string value)
    (v : value) :
  order_data !! "customer" = Some v ->
  (forall c, v <> VDict c) ->
  OrderInfo.__init__ order_data
  = match order_data !! "order_id", order_data !! "total" with
    | None, _ => inl (KeyError "order_id")
    | Some _, None => inl (KeyError "total")
    | Some _, Some _ => inl TypeError
    end.
Proof.
  intros Hv Hnd. unfold OrderInfo.__init__, getitem. rewrite Hv. simpl.
  destruct (order_data !! "order_id"); simpl; [| reflexivity].
  destruct (order_data !! "total"); simpl; [| reflexivity].
  destruct v as [x|c|l]; simpl; try reflexivity. exfalso. exact (Hnd c eq_refl).
Qed.

Lemma send_run (rt : Runtime) (k : string) (c : notification_class)
    (info : OrderInfo.t) (w : world) :
  NotificationFactory._strategies !! k = Some c ->
  exists to message lines,
    contact c info = Some to
    /\ send c info w
       = (inr (list_to_map
                 [("type", SStr k); ("to", to); ("message", SStr message);
                  ("timestamp", SStr (isoformat (now (clock w))))]),
          World (heap w) (stdout w ++ lines) (S (clock w))).
Proof.
  rewrite notification_strategies_lookup.
  repeat case_decide; intros [= <-]; subst k; simpl contact.
  - eexists _, _, [_; _; _]. split; [reflexivity |].
    unfold send, EmailNotification_send.
    do 3 (rewrite bind_run, print_run; cbv beta iota).
    simpl heap. simpl stdout. simpl clock. rewrite <- !app_assoc. reflexivity.
  - eexists _, _, [_; _]. split; [reflexivity |].
    unfold send, SMSNotification_send.
    do 2 (rewrite bind_run, print_run; cbv beta iota).
    simpl heap. simpl stdout. simpl clock. rewrite <- !app_assoc. reflexivity.
  - eexists _, _, [_; _]. split; [reflexivity |].
    unfold send, PushNotification_send.
    do 2 (rewrite bind_run, print_run; cbv beta iota).
    simpl heap. simpl stdout. simpl clock. rewrite <- !app_assoc. reflexivity.
Qed.

Lemma alter_app_app (l : ref) (rs1 rs2 : list record)
    (m : gmap ref (list record)) :
  alter (fun xs => xs ++ rs2) l (alter (fun xs => xs ++ rs1) l m)
  = alter (fun xs => xs ++ (rs1 ++ rs2)) l m.
Proof.
  apply map_eq. intros j. destruct (decide (l = j)) as [<- | Hne].
  - rewrite !lookup_alter_eq. destruct (m !! l) as [xs|]; [| reflexivity].
    change (Some ((xs ++ rs1) ++ rs2) = Some (xs ++ (rs1 ++ rs2))).
    rewrite <- app_assoc. reflexivity.
  - rewrite !lookup_alter_ne by assumption. reflexivity.
Qed.

Lemma alter_app_nil (l : ref) (m : gmap ref (list record)) :
  alter (fun xs => xs ++ []) l m = m.
Proof. apply alter_id. intros xs _. apply app_nil_r. Qed.

(** The dispatch loop, with the whole world it leaves. *)
Lemma dispatch_loop (rt : Runtime) (log : HistoryManager.t)
    (info : OrderInfo.t) (types : list string) (w : world) :
  exists done rs lines,
    let w' := World (alter (fun xs => xs ++ rs)
                       (HistoryManager.notifications log) (heap w))
                    (stdout w ++ lines) (clock w + length done)%nat in
    for_each done (dispatch log info) w = (inr tt, w')
    /\ types_are rs done
    /\ (done = types
        \/ exists k rest,
             types = done ++ k :: rest
             /\ NotificationFactory._strategies !! k = None
             /\ for_each types (dispatch log info) w
                = (inl (ValueError
                          ("Tipo de notificación desconocido: " +:+ k)), w')).
Proof.
  revert w. induction types as [|k types IH]; intros w.
  - exists [], [], []. cbv zeta. simpl length.
    rewrite alter_app_nil, app_nil_r, Nat.add_0_r.
    destruct w. split; [reflexivity |]. split; [constructor | left; reflexivity].
  - destruct (NotificationFactory._strategies !! k) as [c|] eqn:Hk.
    + destruct (send_run rt k c info w Hk) as (to & msg & lines & _ & Hsend).
      set (r := list_to_map _) in Hsend.
      set (w2 := World (alter (fun xs => xs ++ [r])
                          (HistoryManager.notifications log) (heap w))
                       (stdout w ++ lines) (S (clock w))).
      assert (Hstep : dispatch log info k w = (inr tt, w2)).
      { unfold dispatch. rewrite bind_run, lift_run, (create_registered _ _ Hk).
        rewrite bind_run, Hsend. reflexivity. }
      destruct (IH w2) as (done & rs & lines' & Hrun & Hty & Hres).
      exists (k :: done), (r :: rs), (lines ++ lines').
      cbv zeta in Hrun, Hres |- *.
      assert (Hw : World (alter (fun xs => xs ++ rs)
                            (HistoryManager.notifications log) (heap w2))
                         (stdout w2 ++ lines') (clock w2 + length done)%nat
                   = World (alter (fun xs => xs ++ r :: rs)
                              (HistoryManager.notifications log) (heap w))
                           (stdout w ++ lines ++ lines')
                           (clock w + length (k :: done))%nat).
      { unfold w2. simpl heap. simpl stdout. simpl clock.
        rewrite alter_app_app, <- app_assoc. simpl length.
        rewrite Nat.add_succ_r. reflexivity. }
      rewrite Hw in Hrun, Hres.
      split; [rewrite for_each_cons, (bind_run_ok _ _ _ _ _ Hstep); exact Hrun |].
      split.
      { constructor; [| exact Hty]. unfold r. simpl.
        rewrite lookup_insert. case_decide; congruence. }
      destruct Hres as [-> | (k' & rest & -> & Hk' & Hfail)]; [left; reflexivity |].
      right. exists k', rest. split; [reflexivity |]. split; [assumption |].
      rewrite for_each_cons, (bind_run_ok _ _ _ _ _ Hstep). exact Hfail.
    + exists [], [], []. cbv zeta. simpl length.
      rewrite alter_app_nil, app_nil_r, Nat.add_0_r.
      destruct w as [hp out clk]. simpl heap. simpl stdout. simpl clock.
      split; [reflexivity |]. split; [constructor |]. right. exists k, types.
      split; [reflexivity |]. split; [assumption |].
      rewrite for_each_cons. apply bind_run_err.
      unfold dispatch. apply bind_run_err.
      rewrite lift_run, (create_unregistered _ Hk). reflexivity.
Qed.

Lemma process_order_dispatches (rt : Runtime) (self : OrderProcessor.t)
    (order_data : gmap string value) (info : OrderInfo.t)
    (notification_types : list string) (w : world) :
  OrderInfo.__init__ order_data = inr info ->
  OrderProcessor.process_order self order_data notification_types w
  = for_each notification_types (dispatch (OrderProcessor.history self) info)
      (World (heap w) (stdout w ++ order_banner info) (clock w)).
Proof.
  intros Hinfo. unfold OrderProcessor.process_order.
  rewrite bind_run, lift_run, Hinfo.
  do 5 (rewrite bind_run, print_run; cbv beta iota).
  simpl heap. simpl stdout. simpl clock.
  rewrite <- !app_assoc. reflexivity.
Qed.

(** X3.  A strategy registered under key [k] sends without touching any
    list object: it only prints, reads the clock once, and returns a record
    of exactly four fields, whose type is [k], whose recipient is the
    contact of its own channel (email, phone or device), and whose timestamp
    is that clock reading. *)
Theorem send_record_shape (rt : Runtime) (k : string)
    (c : notification_class) (info : OrderInfo.t) (w : world) :
  NotificationFactory._strategies !! k = Some c ->
  exists to message lines,
    contact c info = Some to
    /\ send c info w
       = (inr (list_to_map
                 [("type", SStr k); ("to", to); ("message", SStr message);
                  ("timestamp", SStr (isoformat (now (clock w))))]),
          World (heap w) (stdout w ++ lines) (S (clock w))).
Proof. apply send_run. Qed.

(** X4.  For an order with all its fields and any list of registered
    channels (in any order, repeated or not), [process_order] succeeds,
    appends one record per channel in the order of the list, each of the
    type of its channel, and reads the clock once per channel. *)
Theorem dispatch_registered_channels (rt : Runtime) (self : OrderProcessor.t)
    (order_data : gmap string value) (notification_types : list string)
    (w : world) (h : list record) :
  first_missing order_data = None ->
  Forall (fun k => is_Some (NotificationFactory._strategies !! k))
    notification_types ->
  deref w (OrderProcessor.get_history self) = Some h ->
  exists rs w',
    OrderProcessor.process_order self order_data notification_types w
    = (inr tt, w')
    /\ deref w' (OrderProcessor.get_history self) = Some (h ++ rs)
    /\ types_are rs notification_types
    /\ clock w' = (clock w + length notification_types)%nat.
Proof.
  intros Hvalid Hreg Hh.
  destruct (valid_order_init _ Hvalid) as (info & Hinfo).
  rewrite (process_order_dispatches rt self _ info _ w Hinfo).
  destruct (dispatch_loop rt (OrderProcessor.history self) info
              notification_types
              (World (heap w) (stdout w ++ order_banner info) (clock w)))
    as (done & rs & lines & Hrun & Hty & [-> | (k & rest & -> & Hk & _)]).
  - cbv zeta in Hrun. eexists rs, _. split; [exact Hrun |].
    split; [| split; [exact Hty | reflexivity]].
    unfold deref, OrderProcessor.get_history, HistoryManager.get_all in *.
    simpl heap. rewrite lookup_alter_eq, Hh. reflexivity.
  - exfalso. rewrite Forall_app, Forall_cons in Hreg.
    destruct Hreg as (_ & [c Hc] & _). congruence.
Qed.

(** X5.  [process_order] reads the order before anything else: when
    [OrderInfo] raises, the call raises the same error and leaves the world
    as it was, whatever the channels; and with no channel at all a good
    order only prints the five banner lines. *)
Theorem order_is_validated_first (rt : Runtime) (self : OrderProcessor.t)
    (order_data : gmap string value) (notification_types : list string)
    (w : world) :
  (forall e, OrderInfo.__init__ order_data = inl e ->
     OrderProcessor.process_order self order_data notification_types w
     = (inl e, w))
  /\ (forall info, OrderInfo.__init__ order_data = inr info ->
     OrderProcessor.process_order self order_data [] w
     = (inr tt, World (heap w) (stdout w ++ order_banner info) (clock w))).
Proof.
  split.
  - intros e He. apply process_order_invalid. exact He.
  - intros info Hinfo.
    rewrite (process_order_dispatches rt self _ info _ w Hinfo). reflexivity.
Qed.

Lemma process_order_world (rt : Runtime) (self : OrderProcessor.t)
    (order_data : gmap string value) (notification_types : list string)
    (w : world) :
  exists rs lines,
    heap (snd (OrderProcessor.process_order self order_data
                 notification_types w))
    = alter (fun xs => xs ++ rs)
        (HistoryManager.notifications (OrderProcessor.history self)) (heap w)
    /\ stdout (snd (OrderProcessor.process_order self order_data
                      notification_types w))
       = stdout w ++ lines
    /\ (length rs <= length notification_types)%nat.
Proof.
  destruct (OrderInfo.__init__ order_data) as [e|info] eqn:Hinfo.
  - rewrite (process_order_invalid rt self _ _ _ w Hinfo).
    exists [], []. simpl. rewrite alter_app_nil, app_nil_r.
    split; [reflexivity |]. split; [reflexivity | lia].
  - rewrite (process_order_dispatches rt self _ info _ w Hinfo).
    destruct (dispatch_loop rt (OrderProcessor.history self) info
                notification_types
                (World (heap w) (stdout w ++ order_banner info) (clock w)))
      as (done & rs & lines & Hrun & Hty & Hres).
    cbv zeta in Hrun, Hres.
    exists rs, (order_banner info ++ lines).
    assert (Hlen : length rs = length done) by (eapply Forall2_length; exact Hty).
    destruct Hres as [-> | (k & rest & -> & _ & Hfail)].
    + rewrite Hrun. simpl. rewrite <- app_assoc.
      split; [reflexivity |]. split; [reflexivity | lia].
    + rewrite Hfail. simpl. rewrite <- app_assoc.
      split; [reflexivity |]. split; [reflexivity |].
      rewrite length_app. simpl. lia.
Qed.

(** X6.  Whatever its outcome, [process_order] only appends to its own
    history (at most one record per requested channel) and to the output:
    the records and lines already there stay, and no other list object
    changes. *)
Theorem process_order_only_appends (rt : Runtime) (self : OrderProcessor.t)
    (order_data : gmap string value) (notification_types : list string)
    (w : world) :
  let w' := snd (OrderProcessor.process_order self order_data
                   notification_types w) in
  exists rs lines,
    (length rs <= length notification_types)%nat
    /\ deref w' (OrderProcessor.get_history self)
       = (fun h => h ++ rs) <$> deref w (OrderProcessor.get_history self)
    /\ (forall l, l <> OrderProcessor.get_history self ->
          deref w' l = deref w l)
    /\ stdout w' = stdout w ++ lines.
Proof.
  intros w'.
  destruct (process_order_world rt self order_data notification_types w)
    as (rs & lines & Hheap & Hout & Hlen).
  exists rs, lines. split; [exact Hlen |].
  unfold deref, w', OrderProcessor.get_history, HistoryManager.get_all.
  rewrite Hheap. split; [apply lookup_alter_eq |].
  split; [| exact Hout].
  intros l Hne. apply lookup_alter_ne. congruence.
Qed.

(** X7.  Two processors created one after the other hold different, empty
    history lists, and dispatching through the first never changes the
    history of the second. *)
Theorem processors_own_their_history (rt : Runtime) (w : world) :
  exists p1 p2 w1 w2,
    OrderProcessor.__init__ w = (inr p1, w1)
    /\ OrderProcessor.__init__ w1 = (inr p2, w2)
    /\ OrderProcessor.get_history p1 <> OrderProcessor.get_history p2
    /\ deref w2 (OrderProcessor.get_history p1) = Some []
    /\ deref w2 (OrderProcessor.get_history p2) = Some []
    /\ forall order_data notification_types,
         deref (snd (OrderProcessor.process_order p1 order_data
                       notification_types w2))
               (OrderProcessor.get_history p2) = Some [].
Proof.
  destruct (list_new_run w) as (l1 & w1 & Hnew1 & _ & Hl1 & _).
  destruct (list_new_run w1) as (l2 & w2 & Hnew2 & Hfresh2 & Hl2 & _ & _ & Hframe).
  assert (Hne : l1 <> l2) by (intros ->; congruence).
  exists (OrderProcessor.Make (HistoryManager.Make l1)),
         (OrderProcessor.Make (HistoryManager.Make l2)), w1, w2.
  unfold OrderProcessor.__init__, HistoryManager.__init__.
  split; [rewrite bind_run, bind_run, Hnew1; reflexivity |].
  split; [rewrite bind_run, bind_run, Hnew2; reflexivity |].
  unfold OrderProcessor.get_history, HistoryManager.get_all. simpl.
  split; [exact Hne |].
  split; [rewrite (Hframe l1 Hne); exact Hl1 |].
  split; [exact Hl2 |].
  intros order_data notification_types.
  destruct (process_order_world rt (OrderProcessor.Make (HistoryManager.Make l1))
              order_data notification_types w2)
    as (rs & lines & Hheap & _ & _).
  unfold deref. rewrite Hheap. simpl.
  rewrite lookup_alter_ne by exact Hne. exact Hl2.
Qed.

End MoreNotifications.

(** ** Further properties of the report flow *)

Lemma float_of_int_overflow (n : Z) :
  2 ^ 1024 <= Z.abs n -> float_of_int n = inl OverflowError.
Proof.
  intros Hbig. unfold float_of_int.
  set (a := Z.abs n) in *.
  assert (H53 : 2 ^ 53 <= 2 ^ 1024) by (apply Z.pow_le_mono_r; lia).
  destruct (a <? 2 ^ 53) eqn:Hlt; [apply Z.ltb_lt in Hlt; lia |].
  assert (Hpos : 0 < a) by (assert (0 < 2 ^ 1024) by (apply Z.pow_pos_nonneg; lia); lia).
  assert (Hlog : 1024 <= Z.log2 a).
  { rewrite <- (Z.log2_pow2 1024) by lia. apply Z.log2_le_mono. exact Hbig. }
  destruct (Z.log2_spec a Hpos) as [Hlo _].
  set (sh := Z.log2 a - 52) in *.
  assert (Hsh : 0 < sh) by (unfold sh; lia).
  cbv zeta.
  set (q := Z.shiftr a sh).
  match goal with
  | |- context [if ?c then q + 1 else q] =>
      set (q' := if c then q + 1 else q)
  end.
  assert (Hq : 2 ^ 52 <= q).
  { unfold q. rewrite Z.shiftr_div_pow2 by lia.
    apply Z.div_le_lower_bound; [apply Z.pow_pos_nonneg; lia |].
    rewrite Z.mul_comm, <- Z.pow_add_r by lia.
    replace (52 + sh) with (Z.log2 a) by (unfold sh; lia). exact Hlo. }
  assert (Hq' : q <= q') by (unfold q'; case_match; lia).
  assert (Hm : 2 ^ 1024 <= Z.shiftl q' sh).
  { rewrite Z.shiftl_mul_pow2 by lia.
    apply Z.le_trans with (2 ^ Z.log2 a); [apply Z.pow_le_mono_r; lia |].
    replace (Z.log2 a) with (52 + sh) by (unfold sh; lia).
    rewrite Z.pow_add_r by lia.
    apply Z.mul_le_mono_nonneg_r; [apply Z.pow_nonneg; lia | lia]. }
  apply Z.leb_le in Hm. rewrite Hm. reflexivity.
Qed.

Section MoreReports.
Import Ejercicio2 Props2 Props4.

Lemma format_2f_small (n : Z) : small n -> format_2f n = inr (two_decimals n).
Proof.
  unfold small, format_2f, float_of_int. intros Hn.
  destruct (Z.abs n <? 2 ^ 53) eqn:Hlt; [reflexivity |].
  apply Z.ltb_ge in Hlt. exfalso. apply (Z.lt_irrefl (Z.abs n)).
  eapply Z.lt_le_trans; [exact Hn | exact Hlt].
Qed.

(** X8.  The template method: [generate] returns the header block with the
    title of the class, the line with the timestamp, and then exactly the
    fragments the body appends to an empty builder; when the title or the
    body raises, it raises the same error and returns no text. *)
Theorem generate_follows_template (rt : Runtime) (c : report_class)
    (data : gmap string value) (timestamp : string) :
  generate c data timestamp
  = match title c with
    | inl e => inl e
    | inr t =>
        match body c data ReportBuilder.__init__ with
        | (inl e, _) => inl e
        | (inr _, b) =>
            inr (String.concat ""
                   (report_header t timestamp ++ ReportBuilder.parts b))
        end
    end.
Proof.
  unfold generate. destruct (title c) as [e|t] eqn:Ht.
  - rewrite bind_run, lift_run. reflexivity.
  - erewrite bind_run_ok; [| rewrite lift_run; reflexivity].
    erewrite bind_run_ok; [| apply (exec_run (Header t))].
    erewrite bind_run_ok; [| apply add_run].
    destruct (body_appends_only rt c data) as (r & frags & Hbody).
    rewrite bind_run, !Hbody. destruct r as [e|[]]; [reflexivity |].
    rewrite build_run. reflexivity.
Qed.

(** X9.  For int income and expenses that a double holds exactly (their
    difference too), the financial body appends three lines: the income,
    the expenses and the balance income - expenses, each with two zero
    decimals. *)
Theorem financial_body_lines (data : gmap string value)
    (income expenses : Z) (b : ReportBuilder.t) :
  data !! "income" = Some (VScalar (SInt income)) ->
  data !! "expenses" = Some (VScalar (SInt expenses)) ->
  small income -> small expenses -> small (income - expenses) ->
  FinancialReport_body data b
  = (inr tt, ReportBuilder.Make
               (ReportBuilder.parts b
                ++ [("Ingresos: $" +:+ two_decimals income) +:+ nl;
                    ("Gastos: $" +:+ two_decimals expenses) +:+ nl;
                    ("Balance: $" +:+ two_decimals (income - expenses))
                    +:+ nl])).
Proof.
  intros Hincome Hexpenses Hi He Hb.
  unfold FinancialReport_body.
  erewrite bind_run_ok;
    [| rewrite lift_run, (getitem_lookup _ _ _ Hincome); reflexivity].
  erewrite bind_run_ok;
    [| rewrite lift_run, (getitem_lookup _ _ _ Hexpenses); reflexivity].
  erewrite bind_run_ok; [| rewrite lift_run; reflexivity].
  erewrite bind_run_ok;
    [| rewrite lift_run; unfold format_2f_value, format_2f_scalar;
       rewrite (format_2f_small _ Hi); reflexivity].
  erewrite bind_run_ok; [| apply add_run].
  erewrite bind_run_ok;
    [| rewrite lift_run; unfold format_2f_value, format_2f_scalar;
       rewrite (format_2f_small _ He); reflexivity].
  erewrite bind_run_ok; [| apply add_run].
  erewrite bind_run_ok; [| rewrite lift_run, (format_2f_small _ Hb); reflexivity].
  rewrite add_run. simpl ReportBuilder.parts.
  rewrite <- !app_assoc. reflexivity.
Qed.


Lemma sum_from_rows (key : string) (rows : list row) (amounts : list Z)
    (acc : Z) :
  Forall2 (fun (r : row) a => r !! key = Some (SInt a)) rows amounts ->
  sum_from acc key rows = inr (acc + sum_list amounts).
Proof.
  intros Hrows. revert acc.
  induction Hrows as [|r a rows amounts Hr _ IH]; intros acc; simpl.
  - rewrite Z.add_0_r. reflexivity.
  - rewrite (getitem_lookup _ _ _ Hr). simpl. rewrite IH. f_equal. lia.
Qed.

Lemma sales_detail_loop (sales_rows : list row) (sales : list (scalar * Z))
    (b : ReportBuilder.t) :
  Forall2 sale_row sales_rows sales ->
  Forall (fun sale => small sale.2) sales ->
  for_each sales_rows (fun sale =>
    product ← lift (getitem sale "product");
    amount ← lift (getitem sale "amount");
    a ← lift (format_2f_scalar amount);
    ReportBuilder.add ("  • Producto: " +:+ str_scalar product +:+ " - $" +:+ a)) b
  = (inr tt, ReportBuilder.Make (ReportBuilder.parts b ++ (sale_line <$> sales))).
Proof.
  intros Hrows. revert b.
  induction Hrows as [|r sale rows sales [Hp Ha] _ IH]; intros b Hsmall.
  - destruct b. simpl. rewrite app_nil_r. reflexivity.
  - apply Forall_cons in Hsmall as [Hs Hsmall].
    rewrite for_each_cons.
    erewrite bind_run_ok.
    2:{ erewrite bind_run_ok; [| rewrite lift_run, (getitem_lookup _ _ _ Hp); reflexivity].
        erewrite bind_run_ok; [| rewrite lift_run, (getitem_lookup _ _ _ Ha); reflexivity].
        erewrite bind_run_ok;
          [| rewrite lift_run; unfold format_2f_scalar;
             rewrite (format_2f_small _ Hs); reflexivity].
        apply add_run. }
    rewrite (IH _ Hsmall). simpl ReportBuilder.parts.
    rewrite <- app_assoc. reflexivity.
Qed.

(** X11.  For any list of sales with a product and an int amount each
    (amounts and total exact as doubles) and any period, the sales body
    appends the total of the amounts, the number of sales, the period, the
    heading, a rule, and one line per sale in the order of the list. *)
Theorem sales_body_lines (rt : Runtime) (data : gmap string value)
    (sales_rows : list row) (sales : list (scalar * Z)) (period : value)
    (b : ReportBuilder.t) :
  data !! "sales" = Some (VList sales_rows) ->
  data !! "period" = Some period ->
  Forall2 sale_row sales_rows sales ->
  Forall (fun sale => small sale.2) sales ->
  small (sum_list (snd <$> sales)) ->
  SalesReport_body data b
  = (inr tt, ReportBuilder.Make
               (ReportBuilder.parts b
                ++ [("Total de ventas: $"
                     +:+ two_decimals (sum_list (snd <$> sales))) +:+ nl;
                    ("Número de transacciones: "
                     +:+ str_int (Z.of_nat (length sales))) +:+ nl;
                    ("Periodo: " +:+ str_value period +:+ nl) +:+ nl;
                    "Detalle de ventas:" +:+ nl;
                    str_mul "-" 60 +:+ nl]
                ++ (sale_line <$> sales))).
Proof.
  intros Hsales Hperiod Hrows Hsmall Htotal.
  assert (Hamounts : Forall2 (fun (r : row) a => r !! "amount" = Some (SInt a))
                       sales_rows (snd <$> sales)).
  { clear -Hrows. induction Hrows as [|r sale rows sales [_ Ha] _ IH];
      constructor; assumption. }
  assert (Hlen : length sales_rows = length sales)
    by (eapply Forall2_length; exact Hrows).
  unfold SalesReport_body.
  erewrite bind_run_ok;
    [| rewrite lift_run, (getitem_lookup _ _ _ Hsales); reflexivity].
  erewrite bind_run_ok;
    [| rewrite lift_run; unfold sum_field;
       rewrite (sum_from_rows _ _ _ _ Hamounts), Z.add_0_l; reflexivity].
  erewrite bind_run_ok;
    [| rewrite lift_run, (format_2f_small _ Htotal); reflexivity].
  erewrite bind_run_ok; [| apply add_run].
  erewrite bind_run_ok; [| apply add_run].
  erewrite bind_run_ok;
    [| rewrite lift_run, (getitem_lookup _ _ _ Hperiod); reflexivity].
  erewrite bind_run_ok; [| apply add_run].
  erewrite bind_run_ok; [| apply add_run].
  erewrite bind_run_ok; [| apply (exec_run Separator)].
  rewrite (sales_detail_loop _ _ _ Hrows Hsmall).
  simpl ReportBuilder.parts. rewrite Hlen.
  rewrite <- !app_assoc. reflexivity.
Qed.

Lemma inventory_detail_loop (item_rows : list row)
    (items : list (scalar * scalar * Z)) (b : ReportBuilder.t) :
  Forall2 item_row item_rows items ->
  for_each item_rows (fun item =>
    name ← lift (getitem item "name");
    category ← lift (getitem item "category");
    quantity ← lift (getitem item "quantity");
    ReportBuilder.add ("  • " +:+ str_scalar name +:+ " (" +:+ str_scalar category
         +:+ "): " +:+ str_scalar quantity +:+ " unidades")) b
  = (inr tt, ReportBuilder.Make (ReportBuilder.parts b ++ (item_line <$> items))).
Proof.
  intros Hrows. revert b.
  induction Hrows as [|r item rows items (Hn & Hc & Hq) _ IH]; intros b.
  - destruct b. simpl. rewrite app_nil_r. reflexivity.
  - rewrite for_each_cons.
    erewrite bind_run_ok.
    2:{ erewrite bind_run_ok; [| rewrite lift_run, (getitem_lookup _ _ _ Hn); reflexivity].
        erewrite bind_run_ok; [| rewrite lift_run, (getitem_lookup _ _ _ Hc); reflexivity].
        erewrite bind_run_ok; [| rewrite lift_run, (getitem_lookup _ _ _ Hq); reflexivity].
        apply add_run. }
    rewrite IH. simpl ReportBuilder.parts.
    rewrite <- app_assoc. reflexivity.
Qed.

Lemma collect_rows (key : string) (rows : list row) (xs : list scalar) :
  Forall2 (fun (r : row) x => r !! key = Some x) rows xs ->
  collect key rows = inr xs.
Proof.
  induction 1 as [|r x rows xs Hr _ IH]; simpl; [reflexivity |].
  rewrite (getitem_lookup _ _ _ Hr). simpl. rewrite IH. reflexivity.
Qed.

(** X12.  For any list of items with a name, a category and an int
    quantity, the inventory body appends the sum of the quantities, the
    number of distinct categories, the heading, a rule, and one line per
    item in the order of the list. *)
Theorem inventory_body_lines (data : gmap string value)
    (item_rows : list row) (items : list (scalar * scalar * Z))
    (b : ReportBuilder.t) :
  data !! "items" = Some (VList item_rows) ->
  Forall2 item_row item_rows items ->
  InventoryReport_body data b
  = (inr tt, ReportBuilder.Make
               (ReportBuilder.parts b
                ++ [("Total de productos: "
                     +:+ str_int (sum_list (snd <$> items))) +:+ nl;
                    ("Categorías: "
                     +:+ str_int (count_distinct ((fun i => i.1.2) <$> items))
                     +:+ nl) +:+ nl;
                    "Inventario actual:" +:+ nl;
                    str_mul "-" 60 +:+ nl]
                ++ (item_line <$> items))).
Proof.
  intros Hitems Hrows.
  assert (Hq : Forall2 (fun (r : row) a => r !! "quantity" = Some (SInt a))
                 item_rows (snd <$> items)).
  { clear -Hrows. induction Hrows as [|r i rows items (_ & _ & Hq) _ IH];
      constructor; assumption. }
  assert (Hc : Forall2 (fun (r : row) x => r !! "category" = Some x)
                 item_rows ((fun i => i.1.2) <$> items)).
  { clear -Hrows. induction Hrows as [|r i rows items (_ & Hc & _) _ IH];
      constructor; assumption. }
  unfold InventoryReport_body.
  erewrite bind_run_ok;
    [| rewrite lift_run, (getitem_lookup _ _ _ Hitems); reflexivity].
  erewrite bind_run_ok;
    [| rewrite lift_run; unfold sum_field;
       rewrite (sum_from_rows _ _ _ _ Hq), Z.add_0_l; reflexivity].
  erewrite bind_run_ok; [| rewrite lift_run, (collect_rows _ _ _ Hc); reflexivity].
  erewrite bind_run_ok; [| apply add_run].
  erewrite bind_run_ok; [| apply add_run].
  erewrite bind_run_ok; [| apply add_run].
  erewrite bind_run_ok; [| apply (exec_run Separator)].
  rewrite (inventory_detail_loop _ _ _ Hrows).
  simpl ReportBuilder.parts. rewrite <- !app_assoc. reflexivity.
Qed.

(** X13.  The number of categories [len(set(...))] lies between 0 and the
    number of items, is at least 1 when there is an item, equals the number
    of items when no category repeats, and does not grow when a category
    that is already there is added. *)
Theorem distinct_categories_bounds (cats : list scalar) :
  0 <= count_distinct cats <= Z.of_nat (length cats)
  /\ (cats <> [] -> 1 <= count_distinct cats)
  /\ (NoDup cats -> count_distinct cats = Z.of_nat (length cats))
  /\ (forall x, x ∈ cats -> count_distinct (x :: cats) = count_distinct cats).
Proof.
  unfold count_distinct. repeat split.
  - lia.
  - apply inj_le. induction cats as [|x cats IH]; simpl; [lia |].
    case_decide; simpl; lia.
  - intros Hne. destruct cats as [|x cats]; [congruence |].
    assert (Hin : x ∈ remove_dups (x :: cats))
      by (apply elem_of_remove_dups; left).
    destruct (remove_dups (x :: cats)); [inversion Hin | simpl; lia].
  - intros Hnd. f_equal. induction Hnd as [|x cats Hx _ IH]; simpl; [reflexivity |].
    case_decide; [contradiction |]. simpl. rewrite IH. reflexivity.
  - intros x Hx. simpl. case_decide; [reflexivity | contradiction].
Qed.

(** X14.  What [sales] may hold besides a list: an empty string and an
    empty dict are read as no sales, and the report then shows a total of
    0.00 and 0 transactions; an int, a non-empty string or a non-empty dict
    makes the body raise [TypeError] before it writes anything. *)
Theorem empty_sales_report (rt : Runtime) (data : gmap string value)
    (v period : value) (b : ReportBuilder.t) :
  data !! "sales" = Some v ->
  data !! "period" = Some period ->
  (rows_of v = inr [] <->
   v = VList [] \/ v = VScalar (SStr "") \/ v = VDict ∅)
  /\ (rows_of v = inr [] ->
      SalesReport_body data b
      = (inr tt, ReportBuilder.Make
                   (ReportBuilder.parts b
                    ++ ["Total de ventas: $0.00" +:+ nl;
                        "Número de transacciones: 0" +:+ nl;
                        ("Periodo: " +:+ str_value period +:+ nl) +:+ nl;
                        "Detalle de ventas:" +:+ nl;
                        str_mul "-" 60 +:+ nl])))
  /\ (forall e, rows_of v = inl e ->
      e = TypeError /\ SalesReport_body data b = (inl TypeError, b)).
Proof.
  intros Hsales Hperiod. split; [| split].
  - destruct v as [[n|s]|d|l]; simpl.
    + split; [discriminate | intros [Hv | [Hv | Hv]]; discriminate].
    + destruct (decide (s = "")) as [-> | Hs].
      * split; auto.
      * split; [discriminate |].
        intros [Hv | [Hv | Hv]]; try discriminate. congruence.
    + destruct (decide (d = ∅)) as [-> | Hd].
      * split; auto.
      * split; [discriminate |].
        intros [Hv | [Hv | Hv]]; try discriminate. congruence.
    + split.
      * intros [= ->]. auto.
      * intros [Hv | [Hv | Hv]]; try discriminate. congruence.
  - intros Hrows. unfold SalesReport_body.
    erewrite bind_run_ok;
      [| rewrite lift_run, (getitem_lookup _ _ _ Hsales); simpl; rewrite Hrows;
         reflexivity].
    erewrite bind_run_ok; [| rewrite lift_run; reflexivity].
    erewrite bind_run_ok; [| rewrite lift_run; reflexivity].
    erewrite bind_run_ok; [| apply add_run].
    erewrite bind_run_ok; [| apply add_run].
    erewrite bind_run_ok;
      [| rewrite lift_run, (getitem_lookup _ _ _ Hperiod); reflexivity].
    erewrite bind_run_ok; [| apply add_run].
    erewrite bind_run_ok; [| apply add_run].
    erewrite bind_run_ok; [| apply (exec_run Separator)].
    simpl ReportBuilder.parts. rewrite <- !app_assoc. reflexivity.
  - intros e He.
    assert (e = TypeError) as ->.
    { destruct v as [[n|s]|d|l]; simpl in He; repeat case_decide; congruence. }
    split; [reflexivity |]. unfold SalesReport_body.
    apply bind_run_err. rewrite lift_run, (getitem_lookup _ _ _ Hsales). simpl.
    rewrite He. reflexivity.
Qed.

Lemma append_length (s1 s2 : string) :
  String.length (s1 +:+ s2) = (String.length s1 + String.length s2)%nat.
Proof.
  induction s1 as [|c s1 IH]; [reflexivity |].
  change (S (String.length (s1 +:+ s2))
          = S (String.length s1 + String.length s2)). rewrite IH. reflexivity.
Qed.

Lemma append_inv_head (p x y : string) : p +:+ x = p +:+ y -> x = y.
Proof.
  induction p as [|c p IH]; [intros H; exact H |].
  change (String c (p +:+ x) = String c (p +:+ y) -> x = y).
  intros [= H]. exact (IH H).
Qed.

Lemma append_inv_tail (x y q : string) : x +:+ q = y +:+ q -> x = y.
Proof.
  revert y. induction x as [|c x IH]; intros [|d y] H.
  - reflexivity.
  - exfalso. apply (f_equal String.length) in H.
    change (String.length q = S (String.length (y +:+ q))) in H.
    rewrite append_length in H. lia.
  - exfalso. apply (f_equal String.length) in H.
    change (S (String.length (x +:+ q)) = String.length q) in H.
    rewrite append_length in H. lia.
  - change (String c (x +:+ q) = String d (y +:+ q)) in H.
    injection H as -> H. rewrite (IH _ H). reflexivity.
Qed.

Lemma format_shape (c : format_class) :
  c <> FormatStrategy ->
  exists pre post line, forall content w,
    format c content w
    = (inr (pre +:+ content +:+ post),
       World (heap w) (stdout w ++ [line]) (clock w)).
Proof.
  intros Hc. destruct c; [congruence | | |].
  - eexists ("[PDF FORMAT]" +:+ nl), (nl +:+ "[END PDF]"), _.
    intros content w. unfold format. rewrite bind_run, print_run.
    cbv beta iota. rewrite !append_assoc. reflexivity.
  - eexists ("[EXCEL FORMAT]" +:+ nl), (nl +:+ "[END EXCEL]"), _.
    intros content w. unfold format. rewrite bind_run, print_run.
    cbv beta iota. rewrite !append_assoc. reflexivity.
  - eexists ("<html><body><pre>" +:+ nl), (nl +:+ "</pre></body></html>"), _.
    intros content w. unfold format. rewrite bind_run, print_run.
    cbv beta iota. rewrite !append_assoc. reflexivity.
Qed.

(** X15.  Each concrete formatter prints one line and returns the content
    unchanged between two fixed markers that depend on the class only; so
    the content can be recovered: two contents with the same formatted text
    are equal. *)
Theorem format_wraps_content (c : format_class) :
  c <> FormatStrategy ->
  exists pre post line,
    (forall content w,
       format c content w
       = (inr (pre +:+ content +:+ post),
          World (heap w) (stdout w ++ [line]) (clock w)))
    /\ (forall x y w1 w2,
          fst (format c x w1) = fst (format c y w2) -> x = y).
Proof.
  intros Hc. destruct (format_shape c Hc) as (pre & post & line & Hshape).
  exists pre, post, line. split; [exact Hshape |].
  intros x y w1 w2. rewrite !Hshape. simpl. intros [= H].
  apply append_inv_head in H. apply append_inv_tail in H. exact H.
Qed.

Lemma deliver_shape (rt : Runtime) (c : delivery_class)
    (report_type output_format : string) (w : world) :
  c <> DeliveryStrategy ->
  exists lines,
    forall formatted_report,
      deliver c formatted_report report_type output_format w
      = (inr tt,
         World (heap w) (stdout w ++ lines)
               match c with
               | DownloadDelivery => S (clock w)
               | _ => clock w
               end).
Proof.
  intros Hc. destruct c; [congruence | | |].
  - eexists [_; _]. intros f. unfold deliver.
    rewrite bind_run, !print_run. cbv beta iota.
    simpl heap. simpl stdout. simpl clock. rewrite <- app_assoc. reflexivity.
  - eexists [_; _]. intros f. unfold deliver.
    rewrite bind_run. unfold datetime_now. cbv beta iota zeta.
    rewrite bind_run, !print_run. cbv beta iota.
    simpl heap. simpl stdout. simpl clock. rewrite <- app_assoc. reflexivity.
  - eexists [_; _]. intros f. unfold deliver.
    rewrite bind_run, !print_run. cbv beta iota.
    simpl heap. simpl stdout. simpl clock. rewrite <- app_assoc. reflexivity.
Qed.

(** X16.  No concrete delivery looks at the formatted report: whatever the
    text, the delivery succeeds, prints the same lines, and touches no list
    object; only the download delivery reads the clock (once, for the file
    name). *)
Theorem deliver_never_uses_the_report (rt : Runtime) (c : delivery_class)
    (report_type output_format : string) (w : world) :
  c <> DeliveryStrategy ->
  exists lines,
    forall formatted_report,
      deliver c formatted_report report_type output_format w
      = (inr tt,
         World (heap w) (stdout w ++ lines)
               match c with
               | DownloadDelivery => S (clock w)
               | _ => clock w
               end).
Proof. apply deliver_shape. Qed.

(** A run either stops at a lookup or at the generation, having only read
    the clock, or goes through all its stages. *)
Lemma generate_report_cases (rt : Runtime) (self : ReportSystem.t)
    (report_type : string) (data : gmap string value)
    (output_format delivery_method : string) (w : world) :
  let timestamp := strftime (now (clock w)) "%Y-%m-%d %H:%M:%S" in
  (exists e,
     ReportSystem.generate_report self report_type data output_format
       delivery_method w
     = (inl e, World (heap w) (stdout w) (S (clock w))))
  \/ exists rs fs ds content formatted fline dlines,
       ReportFactory.create report_type = inr rs
       /\ FormatFactory.create output_format = inr fs
       /\ DeliveryFactory.create delivery_method = inr ds
       /\ generate rs data timestamp = inr content
       /\ (forall w0, fst (format fs content w0) = inr formatted)
       /\ ReportSystem.generate_report self report_type data output_format
            delivery_method w
          = (inr formatted,
             World (alter (fun xs => xs ++ [report_record report_type
                             output_format delivery_method timestamp])
                      (HistoryManager._reports (ReportSystem.history self))
                      (heap w))
                   (stdout w ++ [fline] ++ dlines
                    ++ [nl +:+ "✅ Reporte generado exitosamente" +:+ nl;
                        formatted; nl +:+ str_mul "=" 60 +:+ nl])
                   match ds with
                   | DownloadDelivery => S (S (clock w))
                   | _ => S (clock w)
                   end).
Proof.
  intros timestamp. unfold ReportSystem.generate_report.
  erewrite bind_run_ok; [| reflexivity]. fold timestamp.
  destruct (ReportFactory.create report_type) as [e|rs] eqn:Hrs.
  { left. exists e. apply bind_run_err. reflexivity. }
  erewrite bind_run_ok; [| reflexivity].
  destruct (FormatFactory.create output_format) as [e|fs] eqn:Hfs.
  { left. exists e. apply bind_run_err. reflexivity. }
  erewrite bind_run_ok; [| reflexivity].
  destruct (DeliveryFactory.create delivery_method) as [e|ds] eqn:Hds.
  { left. exists e. apply bind_run_err. reflexivity. }
  erewrite bind_run_ok; [| reflexivity].
  destruct (generate rs data timestamp) as [e|content] eqn:Hgen.
  { left. exists e. apply bind_run_err. reflexivity. }
  erewrite bind_run_ok; [| reflexivity].
  right.
  destruct (format_shape fs (format_create_concrete _ _ Hfs))
    as (pre & post & fline & Hformat).
  destruct (deliver_shape rt ds report_type output_format
              (World (heap w) (stdout w ++ [fline]) (S (clock w)))
              (delivery_create_concrete _ _ Hds)) as (dlines & Hdeliver).
  exists rs, fs, ds, content, (pre +:+ content +:+ post), fline, dlines.
  do 4 (split; [first [reflexivity | assumption] |]).
  split; [intros w0; rewrite Hformat; reflexivity |].
  erewrite bind_run_ok; [| apply Hformat].
  erewrite bind_run_ok; [| apply Hdeliver].
  erewrite bind_run_ok; [| apply list_append_run].
  erewrite bind_run_ok; [| apply print_run].
  erewrite bind_run_ok; [| apply print_run].
  erewrite bind_run_ok; [| apply print_run].
  simpl heap. simpl stdout. simpl clock.
  rewrite <- !app_assoc. destruct ds; reflexivity.
Qed.

(** X17.  A run whose three keys are registered and whose generation
    succeeds returns the formatted content and leaves this world: one
    record appended to the history, with the three keys and the timestamp
    that was given to the generation; the formatter's line, the delivery's
    lines, then the success line, the returned text itself and a rule
    printed; the clock read once, or twice with the download delivery. *)
Theorem report_run_effects (rt : Runtime) (self : ReportSystem.t)
    (report_type : string) (data : gmap string value)
    (output_format delivery_method : string) (w : world)
    (rs : report_class) (fs : format_class) (ds : delivery_class)
    (content : string) :
  let timestamp := strftime (now (clock w)) "%Y-%m-%d %H:%M:%S" in
  ReportFactory.create report_type = inr rs ->
  FormatFactory.create output_format = inr fs ->
  DeliveryFactory.create delivery_method = inr ds ->
  generate rs data timestamp = inr content ->
  exists formatted fline dlines,
    (forall w0, fst (format fs content w0) = inr formatted)
    /\ ReportSystem.generate_report self report_type data output_format
         delivery_method w
       = (inr formatted,
          World (alter (fun xs => xs ++ [report_record report_type
                          output_format delivery_method timestamp])
                   (HistoryManager._reports (ReportSystem.history self))
                   (heap w))
                (stdout w ++ [fline] ++ dlines
                 ++ [nl +:+ "✅ Reporte generado exitosamente" +:+ nl;
                     formatted; nl +:+ str_mul "=" 60 +:+ nl])
                match ds with
                | DownloadDelivery => S (S (clock w))
                | _ => S (clock w)
                end).
Proof.
  intros timestamp Hrs Hfs Hds Hgen.
  destruct (generate_report_cases rt self report_type data output_format
              delivery_method w)
    as [[e Hfail] | (rs' & fs' & ds' & content' & formatted & fline & dlines
                     & Hrs' & Hfs' & Hds' & Hgen' & Hformat & Hrun)].
  - exfalso.
    destruct (generate_report_fails rt self _ _ _ _ _ _ _ Hfail) as [_ Hstaged].
    rewrite Hrs, Hfs, Hds in Hstaged. simpl in Hstaged.
    fold timestamp in Hstaged. congruence.
  - fold timestamp in Hgen', Hrun.
    assert (rs' = rs) as -> by congruence.
    assert (fs' = fs) as -> by congruence.
    assert (ds' = ds) as -> by congruence.
    assert (content' = content) as -> by congruence.
    exists formatted, fline, dlines. split; assumption.
Qed.

(** X18.  Whatever its outcome, [generate_report] changes no list object
    other than its own history and only appends to the output; the history
    gains exactly one record when the run returns, and none when it
    raises. *)
Theorem report_run_only_appends (rt : Runtime) (self : ReportSystem.t)
    (report_type : string) (data : gmap string value)
    (output_format delivery_method : string) (w : world) :
  let run := ReportSystem.generate_report self report_type data output_format
               delivery_method w in
  let hist := ReportSystem.get_report_history self in
  (forall l, l <> hist -> deref (snd run) l = deref w l)
  /\ (exists lines, stdout (snd run) = stdout w ++ lines)
  /\ match fst run with
     | inl _ => deref (snd run) hist = deref w hist
     | inr _ =>
         deref (snd run) hist
         = (fun h => h ++ [report_record report_type output_format
                             delivery_method
                             (strftime (now (clock w)) "%Y-%m-%d %H:%M:%S")])
           <$> deref w hist
     end.
Proof.
  intros run hist. subst run hist.
  unfold ReportSystem.get_report_history, HistoryManager.get_all, deref.
  destruct (generate_report_cases rt self report_type data output_format
              delivery_method w)
    as [[e ->] | (rs & fs & ds & content & formatted & fline & dlines
                  & _ & _ & _ & _ & _ & ->)]; simpl.
  - split; [reflexivity |]. split; [| reflexivity].
    exists []. rewrite app_nil_r. reflexivity.
  - split; [intros l Hne; apply lookup_alter_ne; congruence |].
    split; [eexists; reflexivity |]. apply lookup_alter_eq.
Qed.

(** X19.  The vocabularies of the four registries: the keys are exactly
    email/sms/push, sales/inventory/financial, pdf/excel/html and
    email/download/cloud, compared as they are written (no case folding or
    trimming); any other key raises [ValueError] with the message of the
    factory followed by the key. *)
Theorem registry_vocabularies (k : string) :
  Ejercicio1.NotificationFactory.create k
  = (if decide (k = "email") then inr Ejercicio1.EmailNotification
     else if decide (k = "sms") then inr Ejercicio1.SMSNotification
     else if decide (k = "push") then inr Ejercicio1.PushNotification
     else inl (ValueError ("Tipo de notificación desconocido: " +:+ k)))
  /\ ReportFactory.create k
     = (if decide (k = "sales") then inr SalesReport
        else if decide (k = "inventory") then inr InventoryReport
        else if decide (k = "financial") then inr FinancialReport
        else inl (ValueError ("Tipo de reporte desconocido: " +:+ k)))
  /\ FormatFactory.create k
     = (if decide (k = "pdf") then inr PDFFormatter
        else if decide (k = "excel") then inr ExcelFormatter
        else if decide (k = "html") then inr HTMLFormatter
        else inl (ValueError ("Formato desconocido: " +:+ k)))
  /\ DeliveryFactory.create k
     = (if decide (k = "email") then inr EmailDelivery
        else if decide (k = "download") then inr DownloadDelivery
        else if decide (k = "cloud") then inr CloudDelivery
        else inl (ValueError ("Método de entrega desconocido: " +:+ k))).
Proof.
  unfold Ejercicio1.NotificationFactory.create, ReportFactory.create,
    FormatFactory.create, DeliveryFactory.create.
  rewrite notification_strategies_lookup, report_strategies_lookup,
    format_strategies_lookup, delivery_strategies_lookup.
  repeat split; repeat case_decide; reflexivity.
Qed.

(** X20.  Building is compositional: the text built after two sequences of
    calls made one after the other on a new builder is the text of the
    first sequence followed by the text of the second. *)
Theorem build_of_concatenated_calls (calls1 calls2 : list call) :
  exists s1 s2,
    fst ((for_each calls1 exec;; ReportBuilder.build) ReportBuilder.__init__)
    = inr s1
    /\ fst ((for_each calls2 exec;; ReportBuilder.build) ReportBuilder.__init__)
       = inr s2
    /\ fst ((for_each (calls1 ++ calls2) exec;; ReportBuilder.build)
              ReportBuilder.__init__)
       = inr (s1 +:+ s2).
Proof.
  exists (String.concat "" (concat (fragments <$> calls1))),
         (String.concat "" (concat (fragments <$> calls2))).
  rewrite !bind_run, !for_each_exec, !build_run.
  split; [reflexivity |]. split; [reflexivity |].
  rewrite fmap_app, List.concat_app, <- concat_app. reflexivity.
Qed.
(** X21.  An int income too large for a double (2^1024 or more in
    magnitude) makes the financial body raise [OverflowError] at the first
    formatted line, before it writes anything, and [generate] raises
    it too. *)
Theorem financial_report_overflow (rt : Runtime) (data : gmap string value)
    (income expenses : Z) (timestamp : string) (b : ReportBuilder.t) :
  data !! "income" = Some (VScalar (SInt income)) ->
  data !! "expenses" = Some (VScalar (SInt expenses)) ->
  2 ^ 1024 <= Z.abs income ->
  FinancialReport_body data b = (inl OverflowError, b)
  /\ generate FinancialReport data timestamp = inl OverflowError.
Proof.
  intros Hincome Hexpenses Hbig.
  assert (Hbody : forall b0,
            FinancialReport_body data b0 = (inl OverflowError, b0)).
  { intros b0. unfold FinancialReport_body.
    erewrite bind_run_ok;
      [| rewrite lift_run, (getitem_lookup _ _ _ Hincome); reflexivity].
    erewrite bind_run_ok;
      [| rewrite lift_run, (getitem_lookup _ _ _ Hexpenses); reflexivity].
    erewrite bind_run_ok; [| rewrite lift_run; reflexivity].
    apply bind_run_err. rewrite lift_run.
    unfold format_2f_value, format_2f_scalar, format_2f.
    rewrite (float_of_int_overflow _ Hbig). reflexivity. }
  split; [apply Hbody |].
  unfold generate.
  erewrite bind_run_ok; [| rewrite lift_run; reflexivity].
  erewrite bind_run_ok; [| apply (exec_run (Header _))].
  erewrite bind_run_ok; [| apply add_run].
  erewrite bind_run_err; [| apply Hbody]. reflexivity.
Qed.
End MoreReports.

(** ** The further properties on sample inputs *)

Section Samples.
Import Ejercicio1 Ejercicio2 Props1 Props2 Props3 Props4.

Lemma financial_report_overflow_witness :
  generate (H := sample_runtime) FinancialReport
    (list_to_map [("income", VScalar (SInt (2 ^ 1024)));
                  ("expenses", VScalar (SInt 0))]) "2024-01-01 00:00:00"
  = inl OverflowError.
Proof.
  refine (proj2 (financial_report_overflow sample_runtime
            (list_to_map [("income", VScalar (SInt (2 ^ 1024)));
                          ("expenses", VScalar (SInt 0))])
            (2 ^ 1024) 0 "2024-01-01 00:00:00" ReportBuilder.__init__ _ _ _)).
  - vm_compute. reflexivity.
  - vm_compute. reflexivity.
  - vm_compute. discriminate.
Defined.

Lemma order_info_customer_not_dict_witness :
  OrderInfo.__init__
    (list_to_map [("order_id", VScalar (SStr "ORD-001"));
                  ("customer", VScalar (SStr "Ana"));
                  ("total", VScalar (SInt 150))])
  = inl TypeError.
Proof.
  rewrite (order_info_customer_not_dict
             (list_to_map [("order_id", VScalar (SStr "ORD-001"));
                           ("customer", VScalar (SStr "Ana"));
                           ("total", VScalar (SInt 150))])
             (VScalar (SStr "Ana"))).
  - vm_compute. reflexivity.
  - vm_compute. reflexivity.
  - intros c. discriminate.
Defined.

Lemma send_record_shape_witness :
  exists to message lines,
    contact SMSNotification
      (OrderInfo.Make (VDict sample_customer) (VScalar (SStr "ORD-001"))
         (VScalar (SInt 150)) (SStr "Ana") (SStr "ana@email.com")
         (SStr "600-123") (SStr "DEVICE-1")) = Some to
    /\ send (H := sample_runtime) SMSNotification
         (OrderInfo.Make (VDict sample_customer) (VScalar (SStr "ORD-001"))
            (VScalar (SInt 150)) (SStr "Ana") (SStr "ana@email.com")
            (SStr "600-123") (SStr "DEVICE-1"))
         (World ∅ [] 0)
       = (inr (list_to_map
                 [("type", SStr "sms"); ("to", to); ("message", SStr message);
                  ("timestamp",
                   SStr (isoformat (Runtime := sample_runtime)
                           (now (Runtime := sample_runtime) 0%nat)))]),
          World ∅ ([] ++ lines) 1).
Proof.
  apply (send_record_shape sample_runtime "sms" SMSNotification
           (OrderInfo.Make (VDict sample_customer) (VScalar (SStr "ORD-001"))
              (VScalar (SInt 150)) (SStr "Ana") (SStr "ana@email.com")
              (SStr "600-123") (SStr "DEVICE-1"))
           (World ∅ [] 0)).
  vm_compute. reflexivity.
Defined.

Lemma dispatch_registered_channels_witness :
  exists rs w',
    OrderProcessor.process_order (H := sample_runtime)
      (OrderProcessor.Make (Ejercicio1.HistoryManager.Make 1)) sample_order
      ["push"; "email"; "push"] (World {[ 1%positive := [] ]} [] 0)
    = (inr tt, w')
    /\ deref w' 1%positive = Some ([] ++ rs)
    /\ types_are rs ["push"; "email"; "push"]
    /\ clock w' = (0 + 3)%nat.
Proof.
  apply (dispatch_registered_channels sample_runtime
           (OrderProcessor.Make (Ejercicio1.HistoryManager.Make 1)) sample_order
           ["push"; "email"; "push"] (World {[ 1%positive := [] ]} [] 0) []).
  - vm_compute. reflexivity.
  - repeat constructor; vm_compute; eauto.
  - vm_compute. reflexivity.
Defined.

Lemma financial_body_lines_witness :
  FinancialReport_body financial_data
    ReportBuilder.__init__
  = (inr tt, ReportBuilder.Make
               (ReportBuilder.parts ReportBuilder.__init__
                ++ [("Ingresos: $" +:+ two_decimals 50000) +:+ nl;
                    ("Gastos: $" +:+ two_decimals 32000) +:+ nl;
                    ("Balance: $" +:+ two_decimals (50000 - 32000)) +:+ nl])).
Proof.
  apply (financial_body_lines financial_data 50000 32000
           ReportBuilder.__init__); vm_compute; reflexivity.
Defined.

Lemma sales_body_lines_witness :
  fst (SalesReport_body (H := sample_runtime)
         (list_to_map
            [("period", VScalar (SStr "Enero 2024"));
             ("sales", VList
                [ list_to_map [("product", SStr "Mouse"); ("amount", SInt 25)];
                  list_to_map [("product", SStr "Teclado"); ("amount", SInt 120)]
                ])])
         ReportBuilder.__init__)
  = inr tt.
Proof.
  rewrite (sales_body_lines sample_runtime
             (list_to_map
                [("period", VScalar (SStr "Enero 2024"));
                 ("sales", VList
                    [ list_to_map [("product", SStr "Mouse"); ("amount", SInt 25)];
                      list_to_map [("product", SStr "Teclado"); ("amount", SInt 120)]
                    ])])
             [ list_to_map [("product", SStr "Mouse"); ("amount", SInt 25)];
               list_to_map [("product", SStr "Teclado"); ("amount", SInt 120)] ]
             [(SStr "Mouse", 25); (SStr "Teclado", 120)]
             (VScalar (SStr "Enero 2024")) ReportBuilder.__init__).
  - reflexivity.
  - vm_compute. reflexivity.
  - vm_compute. reflexivity.
  - repeat (constructor; [split; vm_compute; reflexivity |]). constructor.
  - repeat (constructor; [vm_compute; reflexivity |]). constructor.
  - vm_compute. reflexivity.
Defined.

Lemma inventory_body_lines_witness :
  fst (InventoryReport_body
         (list_to_map
            [("items", VList
                [ list_to_map [("name", SStr "Mouse"); ("category", SStr "A");
                               ("quantity", SInt 50)];
                  list_to_map [("name", SStr "Teclado"); ("category", SStr "A");
                               ("quantity", SInt 30)] ])])
         ReportBuilder.__init__)
  = inr tt.
Proof.
  rewrite (inventory_body_lines
             (list_to_map
                [("items", VList
                    [ list_to_map [("name", SStr "Mouse"); ("category", SStr "A");
                                   ("quantity", SInt 50)];
                      list_to_map [("name", SStr "Teclado"); ("category", SStr "A");
                                   ("quantity", SInt 30)] ])])
             [ list_to_map [("name", SStr "Mouse"); ("category", SStr "A");
                            ("quantity", SInt 50)];
               list_to_map [("name", SStr "Teclado"); ("category", SStr "A");
                            ("quantity", SInt 30)] ]
             [(SStr "Mouse", SStr "A", 50); (SStr "Teclado", SStr "A", 30)]
             ReportBuilder.__init__).
  - reflexivity.
  - vm_compute. reflexivity.
  - repeat (constructor; [repeat split; vm_compute; reflexivity |]). constructor.
Defined.

Lemma empty_sales_report_witness :
  SalesReport_body (H := sample_runtime)
    (list_to_map [("period", VScalar (SStr "Enero 2024"));
                  ("sales", VScalar (SStr "abc"))])
    ReportBuilder.__init__
  = (inl TypeError, ReportBuilder.__init__).
Proof.
  refine (proj2 (proj2 (proj2 (empty_sales_report sample_runtime
            (list_to_map [("period", VScalar (SStr "Enero 2024"));
                          ("sales", VScalar (SStr "abc"))])
            (VScalar (SStr "abc")) (VScalar (SStr "Enero 2024"))
            ReportBuilder.__init__ _ _)) TypeError _)).
  - vm_compute. reflexivity.
  - vm_compute. reflexivity.
  - vm_compute. reflexivity.
Defined.

Lemma format_wraps_content_witness :
  exists pre post line,
    (forall content w,
       format ExcelFormatter content w
       = (inr (pre +:+ content +:+ post),
          World (heap w) (stdout w ++ [line]) (clock w)))
    /\ (forall x y w1 w2,
          fst (format ExcelFormatter x w1) = fst (format ExcelFormatter y w2) ->
          x = y).
Proof. apply (format_wraps_content ExcelFormatter). discriminate. Defined.

Lemma deliver_never_uses_the_report_witness :
  exists lines,
    forall formatted_report,
      deliver (H := sample_runtime) DownloadDelivery formatted_report
        "sales" "pdf" (World ∅ [] 0)
      = (inr tt, World ∅ ([] ++ lines) 1).
Proof.
  apply (deliver_never_uses_the_report sample_runtime DownloadDelivery
           "sales" "pdf" (World ∅ [] 0)).
  discriminate.
Defined.

Lemma report_run_effects_witness :
  exists formatted,
    fst (ReportSystem.generate_report (H := sample_runtime)
           (ReportSystem.Make (Ejercicio2.HistoryManager.Make 1))
           "financial" financial_data "pdf" "download"
           (World {[ 1%positive := [] ]} [] 0))
    = inr formatted
    /\ clock (snd (ReportSystem.generate_report (H := sample_runtime)
                     (ReportSystem.Make (Ejercicio2.HistoryManager.Make 1))
                     "financial" financial_data "pdf" "download"
                     (World {[ 1%positive := [] ]} [] 0)))
       = 2%nat.
Proof.
  destruct (generate (H := sample_runtime) FinancialReport financial_data
              (strftime (Runtime := sample_runtime)
                 (now (Runtime := sample_runtime) 0%nat) "%Y-%m-%d %H:%M:%S"))
    as [e|content] eqn:Hgen; [vm_compute in Hgen; discriminate Hgen |].
  assert (Hrs : ReportFactory.create "financial" = inr FinancialReport)
    by (vm_compute; reflexivity).
  assert (Hfs : FormatFactory.create "pdf" = inr PDFFormatter)
    by (vm_compute; reflexivity).
  assert (Hds : DeliveryFactory.create "download" = inr DownloadDelivery)
    by (vm_compute; reflexivity).
  destruct (report_run_effects sample_runtime
              (ReportSystem.Make (Ejercicio2.HistoryManager.Make 1))
              "financial" financial_data "pdf" "download"
              (World {[ 1%positive := [] ]} [] 0)
              FinancialReport PDFFormatter DownloadDelivery content
              Hrs Hfs Hds Hgen)
    as (formatted & fline & dlines & _ & Hrun).
  exists formatted. rewrite Hrun. split; reflexivity.
Defined.
End Samples.
